(** * RedChain habit core: state consistency and persistence

    A shallow embedding of the state-bearing code of the application
    component [App] (the game-state reducers passed to [setGameState]),
    of the backup handlers of the [Settings] component ([handleExport],
    [handleImport]) and of the proof vault module ([saveProofImage],
    [getAllProofs], [clearAndRestoreProofs], [deleteProofImage]).
    A second part adds [getProofImage], the theme buttons and the volume
    bar of [Settings], and the calendar of [ProgressView].

    Conventions of the embedding.
    - JavaScript numbers holding points, experience and rank indices are
      integers of [Z]; [Math.floor (a / b)] for a non-zero [b] is [a / b]
      of [Z] (floor division).  [volume] is an IEEE double, kept as a
      primitive [float]; it is only ever copied.
    - A [Date] object is its local calendar fields; the time of day plays
      no role in the code modelled here.
    - Every [setGameState (prev => ...)] reducer is a function of the
      previous game state; the values the handler captured before the
      reducer runs (such as [todayStr]) are arguments of the reducer.
    - The clock, the transaction outcomes of the vault and the fresh
      identifiers are inputs, grouped in a record [Env].
    - The constants of the module [constants] ([INITIAL_THEMES], [RANKS],
      [XP_PER_RANK], [POINTS_PER_COMPLETION], [MISS_PENALTY]) are the
      fields of a class [Constants]. *)

From Stdlib Require Import ZArith Lia Bool List Ascii String.
From Stdlib Require Import DecimalString DecimalZ.
From Stdlib Require Import Floats Uint63.
From stdpp Require Import base option list strings gmap fin_maps.

#[local] Open Scope string_scope.
#[local] Open Scope Z_scope.

(** ** Data model (module [types]) *)

Record Habit := mkHabit {
  habit_id : string;
  title : string;
  completedDays : list string;
  createdAt : string
}.

Record Proof := mkProof {
  proof_id : string;
  habitId : string;
  date : string
}.

Record ColorTheme := mkTheme {
  theme_id : string;
  hex : string;
  cost : Z;
  unlocked : bool
}.

Record Stats := mkStats {
  points : Z;
  totalXP : Z;
  rankIndex : Z
}.

Record GameState := mkGameState {
  habits : list Habit;
  stats : Stats;
  themes : list ColorTheme;
  activeThemeId : string;
  proofLog : list Proof;
  lastCheckDate : option string;
  volume : float
}.

Inductive AppScreen :=
  | SPLASH | MENU | DASHBOARD | SETTINGS | PROOFLOG | PROGRESS | EXIT.

(** JavaScript truthiness of an optional string: [undefined], [null] and
    the empty string are falsy. *)
Definition truthy (o : option string) : bool :=
  match o with
  | None => false
  | Some s => negb (String.eqb s "")
  end.

(** [arr.includes(x)] on an array of strings. *)
Definition includes (arr : list string) (x : string) : bool :=
  existsb (String.eqb x) arr.

(** [arr.find(pred)]: the first element satisfying [pred]. *)
Definition find_first {A} (pred : A -> bool) (arr : list A) : option A :=
  List.find pred arr.

(** ** Date oracle *)

Module DateOracle.

(** The local calendar fields of a JavaScript [Date]: [getFullYear ()],
    [getMonth ()] (0 to 11) and [getDate ()] (1 to 31). *)
Record Date := mkDate {
  getFullYear : Z;
  getMonth : Z;
  getDate : Z
}.

Definition isLeapYear (y : Z) : bool :=
  ((y mod 4 =? 0) && negb (y mod 100 =? 0)) || (y mod 400 =? 0).

(** Number of days of month [m] (0 to 11) of year [y]. *)
Definition daysInMonth (y m : Z) : Z :=
  if m =? 1 then (if isLeapYear y then 29 else 28)
  else if (m =? 3) || (m =? 5) || (m =? 8) || (m =? 10) then 30
  else 31.

Definition validDate (d : Date) : bool :=
  (0 <=? getMonth d) && (getMonth d <=? 11) &&
  (1 <=? getDate d) && (getDate d <=? daysInMonth (getFullYear d) (getMonth d)).

(** Decimal rendering of an integer, as string concatenation does it. *)
Definition numToString (n : Z) : string :=
  NilZero.string_of_int (Z.to_int n).

(** [const pad = (num) => (num < 10 ? '0' : '') + num] *)
Definition pad (num : Z) : string :=
  (if num <? 10 then "0" else "") +:+ numToString num.

(** [getLocalDateString (date)] *)
Definition getLocalDateString (date : Date) : string :=
  numToString (getFullYear date) +:+ "-" +:+ pad (getMonth date + 1)
    +:+ "-" +:+ pad (getDate date).

(** The value of [yesterday] after
    [yesterday.setDate (yesterday.getDate () - 1)] on a copy of [now]:
    day 0 of a month is the last day of the month before, month -1 is
    December of the year before. *)
Definition yesterday (now : Date) : Date :=
  if 1 <? getDate now then
    mkDate (getFullYear now) (getMonth now) (getDate now - 1)
  else if 0 <? getMonth now then
    mkDate (getFullYear now) (getMonth now - 1)
           (daysInMonth (getFullYear now) (getMonth now - 1))
  else
    mkDate (getFullYear now - 1) 11 31.

(** Calendar-day order: lexicographic on year, month, day. *)
Definition dateLtb (a b : Date) : bool :=
  (getFullYear a <? getFullYear b) ||
  ((getFullYear a =? getFullYear b) &&
   ((getMonth a <? getMonth b) ||
    ((getMonth a =? getMonth b) && (getDate a <? getDate b)))).

Definition dateLeb (a b : Date) : bool := negb (dateLtb b a).

(** Reading a calendar-day string back: the last six characters are
    [-MM-DD], what precedes them is the year. *)
Definition digitVal (c : ascii) : option Z :=
  let n := Z.of_nat (nat_of_ascii c) in
  if (48 <=? n) && (n <=? 57) then Some (n - 48) else None.

Definition twoDigits (c1 c2 : ascii) : option Z :=
  match digitVal c1, digitVal c2 with
  | Some a, Some b => Some (10 * a + b)
  | _, _ => None
  end.

(** [pad n] is two characters that read back as [n]. *)
Definition padReadsBack (n : Z) : bool :=
  match list_ascii_of_string (pad n) with
  | [c1; c2] =>
      match twoDigits c1 c2 with
      | Some k => k =? n
      | None => false
      end
  | _ => false
  end.

Definition parseYear (s : string) : option Z :=
  option_map Z.of_int (NilZero.int_of_string s).

Definition parseLocalDateString (s : string) : option Date :=
  match rev (list_ascii_of_string s) with
  | d2 :: d1 :: sep2 :: m2 :: m1 :: sep1 :: ry =>
      if Ascii.eqb sep1 "-" && Ascii.eqb sep2 "-" then
        match parseYear (string_of_list_ascii (rev ry)),
              twoDigits m1 m2, twoDigits d1 d2 with
        | Some y, Some m, Some d =>
            let r := mkDate y (m - 1) d in
            if validDate r then Some r else None
        | _, _, _ => None
        end
      else None
  | _ => None
  end.

(** Calendar-day order on optional day strings: an unset date is below
    every date, a string is comparable to itself, and two different
    strings are compared as the calendar days they denote. *)
Definition dayStrLeb (a b : option string) : bool :=
  match a, b with
  | None, _ => true
  | Some _, None => false
  | Some s, Some t =>
      String.eqb s t ||
      match parseLocalDateString s, parseLocalDateString t with
      | Some d, Some e => dateLeb d e
      | _, _ => false
      end
  end.

End DateOracle.
Export DateOracle.

(** ** Constants (module [constants], not part of the sources at hand) *)

Class Constants := {
  INITIAL_THEMES : list ColorTheme;
  RANKS : list string;
  XP_PER_RANK : Z;
  POINTS_PER_COMPLETION : Z;
  MISS_PENALTY : Z;
  (* the divisor of the rank computation is not zero, so that
     [Math.floor (xp / XP_PER_RANK)] is the floor division of [Z] *)
  XP_PER_RANK_nonzero : XP_PER_RANK <> 0
}.

(** ** Proof vault (module [storage]) *)

Module Storage.

(** One stored object [{ id, data }] of the object store [proofs], whose
    key path is [id]. *)
Record ProofEntry := mkEntry {
  entry_id : string;
  data : string
}.

(** How an IndexedDB transaction ends.  [OpenError]: [initDB] rejects.
    [TxError]: an error event reaches the transaction.  [TxAbort]: the
    transaction aborts without an error event.  Only a completed
    transaction changes the store. *)
Inductive TxOutcome := TxComplete | TxError | TxAbort | OpenError.

(** State of the promise a vault function returns. *)
Inductive Promise (A : Type) :=
  | Resolved (a : A)
  | Rejected
  | Pending.
Arguments Resolved {A} a.
Arguments Rejected {A}.
Arguments Pending {A}.

(** The key and the payload of a stored object. *)
Definition entryPair (p : ProofEntry) : string * string := (entry_id p, data p).

(** [store.put (p)] *)
Definition put (p : ProofEntry) (st : gmap string string) : gmap string string :=
  <[entry_id p := data p]> st.

(** [saveProofImage (id, imageData)]: resolves on [oncomplete], rejects
    on [onerror]; there is no [onabort] handler. *)
Definition saveProofImage (o : TxOutcome) (id imageData : string)
    (st : gmap string string) : Promise unit * gmap string string :=
  match o with
  | TxComplete => (Resolved tt, put (mkEntry id imageData) st)
  | TxError => (Rejected, st)
  | TxAbort => (Pending, st)
  | OpenError => (Rejected, st)
  end.

(** [getAllProofs ()]: the promise follows the request, which fails
    when the transaction fails. *)
Definition getAllProofs (o : TxOutcome) (st : gmap string string)
    : Promise (list ProofEntry) :=
  match o with
  | TxComplete => Resolved (map (fun kv => mkEntry kv.1 kv.2) (map_to_list st))
  | _ => Rejected
  end.

(** The body of [clearRequest.onsuccess]: every entry is put back, in
    array order, into the cleared store. *)
Definition restoreAll (proofs : list ProofEntry) : gmap string string :=
  fold_left (fun st p => put p st) proofs ∅.

(** [clearAndRestoreProofs (proofs)]: one read-write transaction; it
    rejects on [onabort] and on [onerror]. *)
Definition clearAndRestoreProofs (o : TxOutcome) (proofs : list ProofEntry)
    (st : gmap string string) : Promise unit * gmap string string :=
  match o with
  | TxComplete =>
      (Resolved tt, if (0 <? Z.of_nat (length proofs)) then restoreAll proofs else ∅)
  | _ => (Rejected, st)
  end.

(** [deleteProofImage (id)] *)
Definition deleteProofImage (o : TxOutcome) (id : string)
    (st : gmap string string) : Promise unit * gmap string string :=
  match o with
  | TxComplete => (Resolved tt, delete id st)
  | TxError => (Rejected, st)
  | TxAbort => (Pending, st)
  | OpenError => (Rejected, st)
  end.

End Storage.
Export Storage.

(** ** Application state *)

(** What a handler reads from its environment. *)
Record Env := mkEnv {
  now : Date;              (* [new Date ()] in the handler *)
  nowInUpdater : Date;     (* [new Date ()] inside the state updater *)
  millis : Z;              (* [Date.now ()] *)
  isoNow : string;         (* [new Date ().toISOString ()] *)
  randomId : string;       (* [Math.random ().toString (36).substr (2, 9)] *)
  tx : TxOutcome           (* how the vault transaction of the handler ends *)
}.

(** Feedback raised for the interface. *)
Inductive Signal :=
  | Glitch                          (* [setIsGlitching (true)] *)
  | LevelUp (rank : option string)  (* [setLevelUpRank (RANKS[newRankIndex])] *)
  | Click                           (* [playClick ()] *)
  | Alert (msg : string).           (* [alert (msg)] *)

Record App := mkApp {
  gameState : GameState;
  verificationTargetId : option string;
  screen : AppScreen;
  vault : gmap string string
}.

(** A state updater passed to [setGameState]. *)
Definition Updater := GameState -> GameState * list Signal.

(** Applying queued updaters in order. *)
Definition runUpdates (us : list Updater) (g : GameState) : GameState * list Signal :=
  fold_left (fun acc u => let r := u acc.1 in (r.1, (acc.2 ++ r.2)%list)) us (g, []).

Definition initialGameState {K : Constants} : GameState :=
  {| habits := [];
     stats := {| points := 0; totalXP := 0; rankIndex := 0 |};
     themes := INITIAL_THEMES;
     activeThemeId := "red";
     proofLog := [];
     lastCheckDate := None;
     volume := 0.5%float |}.

Definition initialApp {K : Constants} : App :=
  {| gameState := initialGameState;
     verificationTargetId := None;
     screen := SPLASH;
     vault := ∅ |}.

(** ** The component [App] *)

Section AppComponent.
Context {K : Constants}.

(** [setGameState (updater)] on the application state. *)
Definition setGameState (u : Updater) (app : App) : App * list Signal :=
  let r := u (gameState app) in
  ({| gameState := r.1;
      verificationTargetId := verificationTargetId app;
      screen := screen app;
      vault := vault app |}, r.2).

Definition setScreen (s : AppScreen) (app : App) : App :=
  {| gameState := gameState app;
     verificationTargetId := verificationTargetId app;
     screen := s;
     vault := vault app |}.

(** [{ ...prev, lastCheckDate: todayStr }] *)
Definition withLastCheckDate (prev : GameState) (todayStr : string) : GameState :=
  {| habits := habits prev;
     stats := stats prev;
     themes := themes prev;
     activeThemeId := activeThemeId prev;
     proofLog := proofLog prev;
     lastCheckDate := Some todayStr;
     volume := volume prev |}.

(** [prev.lastCheckDate !== todayStr] *)
Definition differsFrom (o : option string) (todayStr : string) : bool :=
  match o with
  | Some s => negb (String.eqb s todayStr)
  | None => true
  end.

(** The loop [prev.habits.forEach (h => { if (...) missedCount++ })]. *)
Definition countMissed (yesterdayStr : string) (hs : list Habit) : Z :=
  fold_left
    (fun missedCount h =>
       if negb (includes (completedDays h) yesterdayStr)
       then missedCount + 1 else missedCount)
    hs 0.

(** [RANKS[i]]; an index outside the array gives [undefined]. *)
Definition rankAt (i : Z) : option string :=
  if i <? 0 then None else RANKS !! Z.to_nat i.

(** The updater of [checkDateAndReset]; [todayStr] was read by the
    callback, [clock] is the [new Date ()] of the updater itself. *)
Definition checkDateAndReset_updater (todayStr : string) (clock : Date) : Updater :=
  fun prev =>
    if truthy (lastCheckDate prev) && differsFrom (lastCheckDate prev) todayStr then
      let yesterdayStr := getLocalDateString (yesterday clock) in
      let missedCount := countMissed yesterdayStr (habits prev) in
      if 0 <? missedCount then
        let penalty := missedCount * MISS_PENALTY in
        let newTotalXP := Z.max 0 (totalXP (stats prev) - penalty) in
        let newRankIndex := newTotalXP / XP_PER_RANK in
        let newPoints := Z.max 0 (points (stats prev) - penalty) in
        ({| habits := habits prev;
            stats := {| points := newPoints;
                        totalXP := newTotalXP;
                        rankIndex := Z.min newRankIndex (Z.of_nat (length RANKS) - 1) |};
            themes := themes prev;
            activeThemeId := activeThemeId prev;
            proofLog := proofLog prev;
            lastCheckDate := Some todayStr;
            volume := volume prev |}, [Glitch])
      else (withLastCheckDate prev todayStr, [])
    else if negb (truthy (lastCheckDate prev)) then
      (withLastCheckDate prev todayStr, [])
    else (prev, []).

(** [checkDateAndReset ()]: the state updates one firing enqueues. *)
Definition checkDateAndReset (env : Env) : list Updater :=
  let todayStr := getLocalDateString (now env) in
  [checkDateAndReset_updater todayStr (nowInUpdater env)].

(** One firing of the periodic check on the application state. *)
Definition tick (env : Env) (app : App) : App * list Signal :=
  setGameState (runUpdates (checkDateAndReset env)) app.

(** [{ ...h, completedDays: [...h.completedDays, todayStr] }] *)
Definition markCompleted (todayStr : string) (h : Habit) : Habit :=
  {| habit_id := habit_id h;
     title := title h;
     completedDays := completedDays h ++ [todayStr];
     createdAt := createdAt h |}.

(** The updater of [handleVerification]. *)
Definition handleVerification_updater
    (todayStr habitId proofId iso : string) : Updater :=
  fun prev =>
    match find_first (fun h => String.eqb (habit_id h) habitId) (habits prev) with
    | None => (prev, [])
    | Some habit =>
        if includes (completedDays habit) todayStr then (prev, [])
        else
          let newProof := {| proof_id := proofId; habitId := habitId; date := iso |} in
          let newHabits :=
            map (fun h => if String.eqb (habit_id h) habitId
                          then markCompleted todayStr h else h) (habits prev) in
          let newTotalXP := totalXP (stats prev) + 100 in
          let newRankIndex :=
            Z.min (newTotalXP / XP_PER_RANK) (Z.of_nat (length RANKS) - 1) in
          ({| habits := newHabits;
              stats := {| points := points (stats prev) + POINTS_PER_COMPLETION;
                          totalXP := newTotalXP;
                          rankIndex := newRankIndex |};
              themes := themes prev;
              activeThemeId := activeThemeId prev;
              proofLog := newProof :: proofLog prev;
              lastCheckDate := lastCheckDate prev;
              volume := volume prev |},
           if rankIndex (stats prev) <? newRankIndex
           then [LevelUp (rankAt newRankIndex); Glitch] else [])
    end.

(** [onToggleHabit (id)] *)
Definition onToggleHabit (id : string) (app : App) : App :=
  {| gameState := gameState app;
     verificationTargetId := Some id;
     screen := screen app;
     vault := vault app |}.

(** [handleVerification (imageData)] *)
Definition handleVerification (env : Env) (imageData : string) (app : App)
    : App * list Signal :=
  if negb (truthy (verificationTargetId app)) then (app, [])
  else
    let todayStr := getLocalDateString (now env) in
    let habitId := default "" (verificationTargetId app) in
    let proofId := "proof_" +:+ numToString (millis env) in
    match saveProofImage (tx env) proofId imageData (vault app) with
    | (Resolved _, vault') =>
        let r := handleVerification_updater todayStr habitId proofId (isoNow env)
                   (gameState app) in
        ({| gameState := r.1;
            verificationTargetId := None;
            screen := screen app;
            vault := vault' |}, r.2 ++ [Click])%list
    | (_, vault') =>
        ({| gameState := gameState app;
            verificationTargetId := verificationTargetId app;
            screen := screen app;
            vault := vault' |}, [])
    end.

(** [handleReset ()] *)
Definition handleReset (env : Env) (app : App) : App * list Signal :=
  ({| gameState :=
        {| habits := [];
           stats := {| points := 0; totalXP := 0; rankIndex := 0 |};
           themes := INITIAL_THEMES;
           activeThemeId := "red";
           proofLog := [];
           lastCheckDate := Some (getLocalDateString (now env));
           volume := volume (gameState app) |};
      verificationTargetId := verificationTargetId app;
      screen := MENU;
      vault := vault app |}, [Click]).

(** [setGlobalVolume (val)] *)
Definition setGlobalVolume (val : float) : Updater :=
  fun prev =>
    ({| habits := habits prev;
        stats := stats prev;
        themes := themes prev;
        activeThemeId := activeThemeId prev;
        proofLog := proofLog prev;
        lastCheckDate := lastCheckDate prev;
        volume := val |}, []).

(** [onAddHabit (title)] *)
Definition onAddHabit (env : Env) (title : string) : Updater :=
  fun prev =>
    let newHabit := {| habit_id := randomId env; title := title;
                       completedDays := []; createdAt := isoNow env |} in
    ({| habits := newHabit :: habits prev;
        stats := stats prev;
        themes := themes prev;
        activeThemeId := activeThemeId prev;
        proofLog := proofLog prev;
        lastCheckDate := lastCheckDate prev;
        volume := volume prev |}, [Click]).

(** [onDeleteHabit (id)] *)
Definition onDeleteHabit (id : string) : Updater :=
  fun prev =>
    ({| habits := List.filter (fun h => negb (String.eqb (habit_id h) id)) (habits prev);
        stats := stats prev;
        themes := themes prev;
        activeThemeId := activeThemeId prev;
        proofLog := List.filter (fun p => negb (String.eqb (habitId p) id)) (proofLog prev);
        lastCheckDate := lastCheckDate prev;
        volume := volume prev |}, [Click]).

(** [{ ...t, unlocked: true }] *)
Definition markUnlocked (t : ColorTheme) : ColorTheme :=
  {| theme_id := theme_id t; hex := hex t; cost := cost t; unlocked := true |}.

(** [onUnlock (themeId)] *)
Definition onUnlock (themeId : string) : Updater :=
  fun prev =>
    match find_first (fun t => String.eqb (theme_id t) themeId) (themes prev) with
    | None => (prev, [Click])
    | Some theme =>
        if unlocked theme || (points (stats prev) <? cost theme) then (prev, [Click])
        else
          ({| habits := habits prev;
              stats := {| points := points (stats prev) - cost theme;
                          totalXP := totalXP (stats prev);
                          rankIndex := rankIndex (stats prev) |};
              themes := map (fun t => if String.eqb (theme_id t) themeId
                                      then markUnlocked t else t) (themes prev);
              activeThemeId := activeThemeId prev;
              proofLog := proofLog prev;
              lastCheckDate := lastCheckDate prev;
              volume := volume prev |}, [Click])
    end.

(** [onSelect (themeId)] *)
Definition onSelect (themeId : string) : Updater :=
  fun prev =>
    ({| habits := habits prev;
        stats := stats prev;
        themes := themes prev;
        activeThemeId := themeId;
        proofLog := proofLog prev;
        lastCheckDate := lastCheckDate prev;
        volume := volume prev |}, [Click]).

(** [onImport (newState)] *)
Definition onImport (newState : GameState) (app : App) : App :=
  {| gameState := newState;
     verificationTargetId := verificationTargetId app;
     screen := MENU;
     vault := vault app |}.

End AppComponent.

(** ** The component [Settings]: backup and restore

    The two handlers are given here on the document, the object that
    [JSON.stringify] is applied to and that [JSON.parse] returns; the
    file between them is modelled in [BackupFile] below. *)

Module Backup.

(** The parsed backup file.  A field the file lacks is [None]; an array,
    even an empty one, and an object are truthy. *)
Record BackupDocument := mkDoc {
  version : option string;
  timestamp : option string;
  doc_gameState : option GameState;
  doc_proofs : option (list ProofEntry)
}.

(** [handleExport ()]: the document written to the downloaded file, or
    the failure alert. *)
Definition handleExport (env : Env) (app : App)
    : option BackupDocument * list Signal :=
  match getAllProofs (tx env) (vault app) with
  | Resolved proofs =>
      (Some {| version := Some "1.0";
               timestamp := Some (isoNow env);
               doc_gameState := Some (gameState app);
               doc_proofs := Some proofs |}, [])
  | _ => (None, [Alert "Backup protocol failed. Vault access restricted."])
  end.

(** [reader.onload] of [handleImport], from the parsed [data] on. *)
Definition handleImport (env : Env) (data : BackupDocument) (app : App)
    : App * list Signal :=
  let failed := [Alert "Import sequence failed. Data corrupted or incompatible version."] in
  match doc_gameState data, doc_proofs data with
  | Some newState, Some proofs =>
      match clearAndRestoreProofs (tx env) proofs (vault app) with
      | (Resolved _, vault') =>
          (onImport newState
             {| gameState := gameState app;
                verificationTargetId := verificationTargetId app;
                screen := screen app;
                vault := vault' |}, [])
      | (_, vault') =>
          ({| gameState := gameState app;
              verificationTargetId := verificationTargetId app;
              screen := screen app;
              vault := vault' |}, failed)
      end
  | _, _ => (app, failed)
  end.

End Backup.
Export Backup.

(** ** The backup file as JSON

    [JSON.stringify] and [JSON.parse] are modelled on values: the text
    of a file is stood for by the value it denotes.  What the pair does
    to a value is kept: a property holding [undefined] is left out, an
    [undefined] array element and a number that is [NaN] or infinite
    become [null], and negative zero becomes zero. *)

Module BackupFile.

#[local] Set Warnings "-register-all".

(** JavaScript values, as far as the backup needs them.  [JInt] is a
    number with an integer value, [JDouble] any number. *)
Inductive JSValue :=
  | JUndefined
  | JNull
  | JBool (b : bool)
  | JInt (z : Z)
  | JDouble (f : float)
  | JString (s : string)
  | JArray (elems : list JSValue)
  | JObject (props : list (string * JSValue)).

(** A double that [JSON.stringify] and [JSON.parse] give back as it is:
    finite and not negative zero. *)
Definition survivesJson (f : float) : bool :=
  PrimFloat.is_finite f && negb (PrimFloat.is_zero f && PrimFloat.get_sign f).

(** The number [JSON.parse] reads from what [JSON.stringify] wrote. *)
Definition jsonNumber (f : float) : JSValue :=
  if PrimFloat.is_finite f then
    if PrimFloat.is_zero f && PrimFloat.get_sign f then JDouble 0%float else JDouble f
  else JNull.

(** [JSON.parse (JSON.stringify (v))] for a value [v] inside an object or
    an array. *)
Fixpoint jsonClone (v : JSValue) : JSValue :=
  match v with
  | JDouble f => jsonNumber f
  | JArray elems =>
      JArray (map (fun e => match e with
                            | JUndefined => JNull
                            | _ => jsonClone e
                            end) elems)
  | JObject props =>
      JObject ((fix cloneProps (ps : list (string * JSValue)) :=
                  match ps with
                  | [] => []
                  | (k, e) :: rest =>
                      match e with
                      | JUndefined => cloneProps rest
                      | _ => (k, jsonClone e) :: cloneProps rest
                      end
                  end) props)
  | _ => v
  end.

(** The content of a file handed to the import: text that is not JSON,
    or JSON text, stood for by the value it denotes. *)
Inductive FileContent :=
  | Malformed
  | JsonText (v : JSValue).

(** [JSON.stringify (v)]: no text for [undefined]. *)
Definition jsonStringify (v : JSValue) : option FileContent :=
  match v with
  | JUndefined => None
  | _ => Some (JsonText (jsonClone v))
  end.

(** [JSON.parse (content)]: throws on text that is not JSON. *)
Definition jsonParse (c : FileContent) : option JSValue :=
  match c with
  | Malformed => None
  | JsonText v => Some v
  end.

(** [v[k]]: [undefined] when [v] is no object or has no such property. *)
Definition getProp (k : string) (v : JSValue) : JSValue :=
  match v with
  | JObject props =>
      match List.find (fun kv => String.eqb kv.1 k) props with
      | Some kv => kv.2
      | None => JUndefined
      end
  | _ => JUndefined
  end.

(** JavaScript truthiness. *)
Definition jsTruthy (v : JSValue) : bool :=
  match v with
  | JUndefined | JNull => false
  | JBool b => b
  | JInt z => negb (z =? 0)
  | JDouble f => negb (PrimFloat.is_nan f || PrimFloat.is_zero f)
  | JString s => negb (String.eqb s "")
  | JArray _ | JObject _ => true
  end.

(** *** The objects of the application as values *)

Definition optionalProp (k : string) (o : option string) : list (string * JSValue) :=
  match o with
  | Some s => [(k, JString s)]
  | None => []
  end.

Definition encodeHabit (h : Habit) : JSValue :=
  JObject [ ("id", JString (habit_id h));
            ("title", JString (title h));
            ("completedDays", JArray (map JString (completedDays h)));
            ("createdAt", JString (createdAt h)) ].

Definition encodeProof (p : Proof) : JSValue :=
  JObject [ ("id", JString (proof_id p));
            ("habitId", JString (habitId p));
            ("date", JString (date p)) ].

Definition encodeTheme (t : ColorTheme) : JSValue :=
  JObject [ ("id", JString (theme_id t));
            ("hex", JString (hex t));
            ("cost", JInt (cost t));
            ("unlocked", JBool (unlocked t)) ].

Definition encodeStats (s : Stats) : JSValue :=
  JObject [ ("points", JInt (points s));
            ("totalXP", JInt (totalXP s));
            ("rankIndex", JInt (rankIndex s)) ].

Definition encodeGameState (g : GameState) : JSValue :=
  JObject ([ ("habits", JArray (map encodeHabit (habits g)));
             ("stats", encodeStats (stats g));
             ("themes", JArray (map encodeTheme (themes g)));
             ("activeThemeId", JString (activeThemeId g));
             ("proofLog", JArray (map encodeProof (proofLog g))) ]
           ++ optionalProp "lastCheckDate" (lastCheckDate g)
           ++ [ ("volume", JDouble (volume g)) ]).

Definition encodeEntry (p : ProofEntry) : JSValue :=
  JObject [ ("id", JString (entry_id p)); ("data", JString (data p)) ].

(** [exportData]: [{ version, timestamp, gameState, proofs }] *)
Definition encodeDocument (doc : BackupDocument) : JSValue :=
  JObject (optionalProp "version" (version doc)
           ++ optionalProp "timestamp" (timestamp doc)
           ++ match doc_gameState doc with
              | Some g => [("gameState", encodeGameState g)]
              | None => []
              end
           ++ match doc_proofs doc with
              | Some ps => [("proofs", JArray (map encodeEntry ps))]
              | None => []
              end).

(** *** Reading a parsed value at the types of the application

    The code uses the parsed value as it is.  The readers below give the
    value at the type the code takes it to have, and [None] when it has
    another shape, which this model does not follow further. *)

Definition asString (v : JSValue) : option string :=
  match v with JString s => Some s | _ => None end.

Definition asInt (v : JSValue) : option Z :=
  match v with JInt z => Some z | _ => None end.

Definition asDouble (v : JSValue) : option float :=
  match v with JDouble f => Some f | _ => None end.

Definition asBool (v : JSValue) : option bool :=
  match v with JBool b => Some b | _ => None end.

(** An optional string property: absent, [undefined] or [null] is unset. *)
Definition asOptionalString (v : JSValue) : option (option string) :=
  match v with
  | JUndefined | JNull => Some None
  | JString s => Some (Some s)
  | _ => None
  end.

Fixpoint readAll {A} (read : JSValue -> option A) (l : list JSValue) : option (list A) :=
  match l with
  | [] => Some []
  | v :: rest =>
      match read v, readAll read rest with
      | Some a, Some r => Some (a :: r)
      | _, _ => None
      end
  end.

Definition asArrayOf {A} (read : JSValue -> option A) (v : JSValue) : option (list A) :=
  match v with JArray elems => readAll read elems | _ => None end.

Definition decodeHabit (v : JSValue) : option Habit :=
  match asString (getProp "id" v), asString (getProp "title" v),
        asArrayOf asString (getProp "completedDays" v),
        asString (getProp "createdAt" v) with
  | Some i, Some t, Some ds, Some c =>
      Some {| habit_id := i; title := t; completedDays := ds; createdAt := c |}
  | _, _, _, _ => None
  end.

Definition decodeProof (v : JSValue) : option Proof :=
  match asString (getProp "id" v), asString (getProp "habitId" v),
        asString (getProp "date" v) with
  | Some i, Some h, Some d => Some {| proof_id := i; habitId := h; date := d |}
  | _, _, _ => None
  end.

Definition decodeTheme (v : JSValue) : option ColorTheme :=
  match asString (getProp "id" v), asString (getProp "hex" v),
        asInt (getProp "cost" v), asBool (getProp "unlocked" v) with
  | Some i, Some h, Some c, Some u =>
      Some {| theme_id := i; hex := h; cost := c; unlocked := u |}
  | _, _, _, _ => None
  end.

Definition decodeStats (v : JSValue) : option Stats :=
  match asInt (getProp "points" v), asInt (getProp "totalXP" v),
        asInt (getProp "rankIndex" v) with
  | Some p, Some x, Some r => Some {| points := p; totalXP := x; rankIndex := r |}
  | _, _, _ => None
  end.

Definition decodeGameState (v : JSValue) : option GameState :=
  match asArrayOf decodeHabit (getProp "habits" v),
        decodeStats (getProp "stats" v),
        asArrayOf decodeTheme (getProp "themes" v),
        asString (getProp "activeThemeId" v),
        asArrayOf decodeProof (getProp "proofLog" v),
        asOptionalString (getProp "lastCheckDate" v),
        asDouble (getProp "volume" v) with
  | Some hs, Some st, Some ts, Some a, Some pl, Some lc, Some vol =>
      Some {| habits := hs; stats := st; themes := ts; activeThemeId := a;
              proofLog := pl; lastCheckDate := lc; volume := vol |}
  | _, _, _, _, _, _, _ => None
  end.

Definition decodeEntry (v : JSValue) : option ProofEntry :=
  match asString (getProp "id" v), asString (getProp "data" v) with
  | Some i, Some d => Some {| entry_id := i; data := d |}
  | _, _ => None
  end.

(** A property of the parsed [data] as [handleImport] tests it: falsy is
    missing; truthy is read at its type. *)
Definition readField {A} (read : JSValue -> option A) (v : JSValue) : option (option A) :=
  if jsTruthy v then option_map Some (read v) else Some None.

(** The parsed [data] as the document [handleImport] works on. *)
Definition readBackup (data : JSValue) : option BackupDocument :=
  match asOptionalString (getProp "version" data),
        asOptionalString (getProp "timestamp" data),
        readField decodeGameState (getProp "gameState" data),
        readField (asArrayOf decodeEntry) (getProp "proofs" data) with
  | Some v, Some t, Some g, Some ps =>
      Some {| version := v; timestamp := t; doc_gameState := g; doc_proofs := ps |}
  | _, _, _, _ => None
  end.

(** [handleExport], up to the content of the downloaded file. *)
Definition exportFile (env : Env) (app : App) : option FileContent * list Signal :=
  match handleExport env app with
  | (Some doc, signals) => (jsonStringify (encodeDocument doc), signals)
  | (None, signals) => (None, signals)
  end.

(** [reader.onload] of [handleImport], from the content of the file:
    [JSON.parse] throwing is caught and alerted like any other failure.
    [None]: the file holds a value of a shape this model does not
    follow. *)
Definition importFile (env : Env) (content : FileContent) (app : App)
    : option (App * list Signal) :=
  match jsonParse content with
  | None =>
      Some (app, [Alert "Import sequence failed. Data corrupted or incompatible version."])
  | Some data => option_map (fun doc => handleImport env doc app) (readBackup data)
  end.

End BackupFile.
Export BackupFile.

(** ** Intents of the interface and runs of the application *)

Inductive Intent :=
  | Tick                                 (* the periodic rollover check *)
  | ToggleHabit (id : string)            (* open the verification dialog *)
  | Capture (imageData : string)         (* [handleVerification] *)
  | ResetAll                             (* [handleReset] *)
  | AddHabit (title : string)
  | DeleteHabit (id : string)
  | UnlockTheme (themeId : string)
  | SelectTheme (themeId : string)
  | SetVolume (val : float)
  | ExportBackup
  | ImportBackup (data : BackupDocument).

Definition isImport (i : Intent) : bool :=
  match i with ImportBackup _ => true | _ => false end.

Section Runs.
Context {K : Constants}.

(** One intent handled in environment [env]. *)
Definition step (env : Env) (i : Intent) (app : App) : App :=
  match i with
  | Tick => (tick env app).1
  | ToggleHabit id => onToggleHabit id app
  | Capture imageData => (handleVerification env imageData app).1
  | ResetAll => (handleReset env app).1
  | AddHabit t => (setGameState (onAddHabit env t) app).1
  | DeleteHabit id => (setGameState (onDeleteHabit id) app).1
  | UnlockTheme id => (setGameState (onUnlock id) app).1
  | SelectTheme id => (setGameState (onSelect id) app).1
  | SetVolume v => (setGameState (setGlobalVolume v) app).1
  | ExportBackup => app
  | ImportBackup data => (handleImport env data app).1
  end.

(** A run: the intents are handled one after the other. *)
Definition run (tr : list (Env * Intent)) (app : App) : App :=
  fold_left (fun a ei => step ei.1 ei.2 a) tr app.

End Runs.

(** The handler clocks of a trace show valid dates and never move back to
    an earlier calendar day. *)
Fixpoint clockMonotone (tr : list (Env * Intent)) : bool :=
  match tr with
  | [] => true
  | ei :: rest =>
      validDate (now ei.1) &&
      match rest with
      | [] => true
      | ej :: _ => dateLeb (now ei.1) (now ej.1)
      end && clockMonotone rest
  end.

Definition noImport (tr : list (Env * Intent)) : bool :=
  forallb (fun ei => negb (isImport ei.2)) tr.

(** [lastCheckDate] is unset or names a calendar day not after [d]. *)
Definition checkedBy (d : Date) (g : GameState) : bool :=
  match lastCheckDate g with
  | None => true
  | Some s =>
      match parseLocalDateString s with
      | Some e => dateLeb e d
      | None => false
      end
  end.

(** Every proof record of the log belongs to a habit of the list. *)
Definition proofsReferenced (g : GameState) : bool :=
  forallb (fun p => existsb (fun h => String.eqb (habit_id h) (habitId p)) (habits g))
          (proofLog g).

(** ** Sample constants and states, used to exercise the theorems *)

Module Sample.

Definition constants : Constants := {|
  INITIAL_THEMES :=
    [ {| theme_id := "red"; hex := "#FF0000"; cost := 0; unlocked := true |};
      {| theme_id := "blue"; hex := "#0000FF"; cost := 500; unlocked := false |} ];
  RANKS := ["R0"; "R1"; "R2"];
  XP_PER_RANK := 1000;
  POINTS_PER_COMPLETION := 10;
  MISS_PENALTY := 50;
  XP_PER_RANK_nonzero := Z.neq_sym _ _ (Z.lt_neq 0 1000 eq_refl)
|}.

Definition may10 : Date := mkDate 2024 4 10.
Definition may9 : Date := mkDate 2024 4 9.

Definition envAt (d : Date) (o : TxOutcome) : Env :=
  {| now := d; nowInUpdater := d; millis := 1715300000000;
     isoNow := "2024-05-10T00:13:20.000Z"; randomId := "k3j9x0q1z"; tx := o |}.

Definition run1 : Habit :=
  {| habit_id := "h1"; title := "run"; completedDays := ["2024-05-09"];
     createdAt := "2024-05-01T08:00:00.000Z" |}.
Definition read2 : Habit :=
  {| habit_id := "h2"; title := "read"; completedDays := ["2024-05-08"];
     createdAt := "2024-05-01T08:00:00.000Z" |}.
Definition cook3 : Habit :=
  {| habit_id := "h3"; title := "cook"; completedDays := ["2024-05-09"; "2024-05-10"];
     createdAt := "2024-05-01T08:00:00.000Z" |}.

Definition game : GameState :=
  {| habits := [run1; read2; cook3];
     stats := {| points := 500; totalXP := 950; rankIndex := 0 |};
     themes := INITIAL_THEMES (Constants := constants);
     activeThemeId := "red";
     proofLog := [ {| proof_id := "proof_1"; habitId := "h3";
                      date := "2024-05-10T00:00:01.000Z" |} ];
     lastCheckDate := Some "2024-05-09";
     volume := 0.5%float |}.

Definition app : App :=
  {| gameState := game;
     verificationTargetId := None;
     screen := DASHBOARD;
     vault := {[ "proof_1" := "data:image/png;base64,AAAA" ]} |}.

End Sample.

(** ** Further code of the three modules *)

(** [getProofImage (id)] of the module [storage]: the promise follows the
    read request and resolves to [request.result?.data || null], so a
    missing object and an empty payload both give [null]. *)
Definition getProofImage (o : TxOutcome) (id : string) (st : gmap string string)
    : Promise (option string) :=
  match o with
  | TxComplete =>
      Resolved match st !! id with
               | Some d => if String.eqb d "" then None else Some d
               | None => None
               end
  | _ => Rejected
  end.

(** [activeTheme] of [App]:
    [themes.find (t => t.id === activeThemeId) || INITIAL_THEMES[0]]. *)
Definition activeTheme {K : Constants} (g : GameState) : option ColorTheme :=
  match find_first (fun t => String.eqb (theme_id t) (activeThemeId g)) (themes g) with
  | Some t => Some t
  | None => head INITIAL_THEMES
  end.

(** [currentRankName] of [Settings]: [RANKS[gameState.stats.rankIndex]]. *)
Definition currentRankName {K : Constants} (g : GameState) : option string :=
  rankAt (rankIndex (stats g)).

(** The theme button of [Settings]: it is disabled for a locked theme the
    points cannot pay; otherwise a click selects an unlocked theme and
    unlocks a locked one. *)
Definition themeRowClick (theme : ColorTheme) (app : App) : App * list Signal :=
  let canAfford := cost theme <=? points (stats (gameState app)) in
  if negb (unlocked theme) && negb canAfford then (app, [])
  else if unlocked theme then setGameState (onSelect (theme_id theme)) app
  else setGameState (onUnlock (theme_id theme)) app.

(** [handleVerification] as the verification dialog holds it.  The
    handler is created by the render in which [verificationTargetId] was
    [captured] and tests that value, whatever the state holds by the
    time it runs; what it saves and how it updates the state is as in
    [handleVerification]. *)
Definition handleVerificationFrom {K : Constants}
    (captured : option string) (env : Env) (imageData : string) (app : App)
    : App * list Signal :=
  if negb (truthy captured) then (app, [])
  else
    let todayStr := getLocalDateString (now env) in
    let habitId := default "" captured in
    let proofId := "proof_" +:+ numToString (millis env) in
    match saveProofImage (tx env) proofId imageData (vault app) with
    | (Resolved _, vault') =>
        let r := handleVerification_updater todayStr habitId proofId (isoNow env)
                   (gameState app) in
        ({| gameState := r.1;
            verificationTargetId := None;
            screen := screen app;
            vault := vault' |}, r.2 ++ [Click])%list
    | (_, vault') =>
        ({| gameState := gameState app;
            verificationTargetId := verificationTargetId app;
            screen := screen app;
            vault := vault' |}, [])
    end.

(** *** The volume bar of [Settings] *)

Module VolumeBar.

(** An integer as a JavaScript number. *)
Definition numberOfZ (z : Z) : float := PrimFloat.of_uint63 (Uint63.of_Z z).

(** [Math.round (x)]: the integer nearest to [x], a tie going up; no
    integer for [NaN] and the infinities.  The float is [n * 2 ^ e]. *)
Definition mathRound (x : float) : option Z :=
  match Prim2SF x with
  | S754_zero _ => Some 0
  | S754_finite s m e =>
      let n := if s then Z.neg m else Z.pos m in
      Some (if 0 <=? e then n * 2 ^ e else (2 * n + 2 ^ (- e)) / 2 ^ (- e + 1))
  | _ => None
  end.

(** [volumeSegments]: [Array.from ({ length: 24 }, (_, i) => i)] *)
Definition volumeSegments : list Z := map Z.of_nat (seq 0 24).

(** The argument of [onVolumeChange (segment / 23)]. *)
Definition segmentVolume (segment : Z) : float := (numberOfZ segment / 23)%float.

(** [currentStep]: [Math.round (gameState.volume * 23)] *)
Definition currentStep (volume : float) : option Z := mathRound (volume * 23)%float.

(** [isActive]: [segment <= currentStep] *)
Definition isActive (segment : Z) (volume : float) : bool :=
  match currentStep volume with
  | Some step => segment <=? step
  | None => false
  end.

End VolumeBar.

(** *** The component [ProgressView] *)

Module ProgressView.

(** The year a [Date] constructor makes of its first argument: 0 to 99
    stand for 1900 to 1999. *)
Definition makeFullYear (year : Z) : Z :=
  if (0 <=? year) && (year <=? 99) then 1900 + year else year.

(** [new Date (year, month, 1)]: a month outside 0 to 11 carries into the
    year. *)
Definition firstOfMonth (year month : Z) : Date :=
  mkDate (makeFullYear year + month / 12) (month mod 12) 1.

(** [prevMonth] and [nextMonth], as the new [currentDate]. *)
Definition prevMonth (currentDate : Date) : Date :=
  firstOfMonth (getFullYear currentDate) (getMonth currentDate - 1).

Definition nextMonth (currentDate : Date) : Date :=
  firstOfMonth (getFullYear currentDate) (getMonth currentDate + 1).

(** [new Date (year, currentDate.getMonth () + 1, 0).getDate ()]: day 0
    of the next month is the day before its first day. *)
Definition daysInMonth (currentDate : Date) : Z :=
  getDate (yesterday (firstOfMonth (getFullYear currentDate) (getMonth currentDate + 1))).

(** [days]: [Array.from ({ length: daysInMonth }, (_, i) => i + 1)] *)
Definition days (currentDate : Date) : list Z :=
  map (fun i => Z.of_nat i + 1) (seq 0 (Z.to_nat (daysInMonth currentDate))).

(** [s.padStart (targetLength, fill)] for a one-character [fill]. *)
Definition padStart (targetLength : nat) (fill : ascii) (s : string) : string :=
  string_of_list_ascii (repeat fill (targetLength - String.length s)) +:+ s.

Record DayDetails := mkDayDetails {
  dateStr : string;
  completedHabits : list Habit;
  efficiency : float
}.

(** [getDayDetails (day)] *)
Definition getDayDetails (g : GameState) (currentDate : Date) (day : Z) : DayDetails :=
  let year := getFullYear currentDate in
  let dateStr :=
    numToString year +:+ "-" +:+
    padStart 2 "0" (numToString (getMonth currentDate + 1)) +:+ "-" +:+
    padStart 2 "0" (numToString day) in
  let completedHabits :=
    List.filter (fun h => includes (completedDays h) dateStr) (habits g) in
  {| dateStr := dateStr;
     completedHabits := completedHabits;
     efficiency :=
       if 0 <? Z.of_nat (length (habits g))
       then (VolumeBar.numberOfZ (Z.of_nat (length completedHabits)) /
             VolumeBar.numberOfZ (Z.of_nat (length (habits g))))%float
       else 0%float |}.

(** Rendering of a number of at most two digits by [padStart] agrees with
    [pad] of [App]. *)
Definition padStartAgrees (n : Z) : bool :=
  String.eqb (padStart 2 "0" (numToString n)) (pad n).

End ProgressView.

(** *** Predicates on states and traces *)

(** Points and experience are not negative. *)
Definition statsNonNegative (g : GameState) : bool :=
  (0 <=? points (stats g)) && (0 <=? totalXP (stats g)).

(** The rank index is the one the experience gives. *)
Definition rankConsistent {K : Constants} (g : GameState) : bool :=
  rankIndex (stats g) =?
    Z.min (totalXP (stats g) / XP_PER_RANK) (Z.of_nat (length RANKS) - 1).

(** Every proof record of the log has a payload in the vault. *)
Definition payloadsStored (app : App) : bool :=
  forallb (fun p => bool_decide (is_Some (vault app !! proof_id p)))
          (proofLog (gameState app)).

Definition isReset (i : Intent) : bool :=
  match i with ResetAll => true | _ => false end.

(** The intents of a trace all satisfy [ok]. *)
Definition allIntents (ok : Intent -> bool) (tr : list (Env * Intent)) : bool :=
  forallb (fun ei => ok ei.2) tr.

(** The value [data] of the last entry of [proofs] with id [id]. *)
Definition lastPayload (id : string) (proofs : list ProofEntry) : option string :=
  option_map data (find_first (fun p => String.eqb (entry_id p) id) (rev proofs)).

(** Habit ids are distinct and no habit lists a day twice. *)
Definition habitsWellFormed (g : GameState) : Prop :=
  NoDup (map habit_id (habits g)) /\
  Forall (fun h => NoDup (completedDays h)) (habits g).

(** * Properties *)

(** ** The date oracle *)

Section DateFacts.

Lemma validDate_bounds d :
  validDate d = true ->
  0 <= getMonth d <= 11 /\ 1 <= getDate d <= daysInMonth (getFullYear d) (getMonth d).
Proof. unfold validDate. rewrite !andb_true_iff, !Z.leb_le. lia. Qed.

Lemma daysInMonth_range y m : 28 <= daysInMonth y m <= 31.
Proof.
  unfold daysInMonth.
  destruct (m =? 1); [destruct (isLeapYear y); lia|].
  destruct ((m =? 3) || (m =? 5) || (m =? 8) || (m =? 10)); lia.
Qed.

Lemma dateLeb_refl d : dateLeb d d = true.
Proof.
  unfold dateLeb, dateLtb.
  rewrite !Z.ltb_irrefl, !Z.eqb_refl. reflexivity.
Qed.

Lemma dateLeb_trans a b c :
  dateLeb a b = true -> dateLeb b c = true -> dateLeb a c = true.
Proof.
  unfold dateLeb, dateLtb. destruct a, b, c; simpl.
  rewrite !negb_true_iff, !orb_false_iff, !andb_false_iff, !orb_false_iff,
          !andb_false_iff, !Z.ltb_ge, !Z.eqb_neq.
  lia.
Qed.




End DateFacts.

Example getLocalDateString_pads : getLocalDateString (mkDate 2024 0 5) = "2024-01-05".
Proof. reflexivity. Qed.

Example getLocalDateString_december : getLocalDateString (mkDate 2023 11 31) = "2023-12-31".
Proof. reflexivity. Qed.

Example yesterday_leap_day : yesterday (mkDate 2024 2 1) = mkDate 2024 1 29.
Proof. reflexivity. Qed.

Example yesterday_new_year : yesterday (mkDate 2024 0 1) = mkDate 2023 11 31.
Proof. reflexivity. Qed.

Example parseLocalDateString_reads :
  parseLocalDateString "2024-01-05" = Some (mkDate 2024 0 5).
Proof. reflexivity. Qed.

Example parseLocalDateString_refuses : parseLocalDateString "2023-02-29" = None.
Proof. reflexivity. Qed.

(** ** Calendar-day strings can be read back *)

Section DayStrings.

Lemma list_ascii_of_string_app (a b : string) :
  list_ascii_of_string (a +:+ b) = (list_ascii_of_string a ++ list_ascii_of_string b)%list.
Proof. induction a as [|c a IH]; simpl; [reflexivity | now rewrite IH]. Qed.

Lemma parseYear_numToString y : parseYear (numToString y) = Some y.
Proof.
  unfold parseYear, numToString.
  rewrite NilZero.isi.
  - simpl. now rewrite DecimalZ.of_to.
  - destruct y; simpl; try discriminate.
    intros [= E]. now apply (DecimalPos.Unsigned.to_uint_nonnil p).
  - destruct y; simpl; try discriminate.
    intros [= E]. now apply (DecimalPos.Unsigned.to_uint_nonnil p).
Qed.

(** [pad] renders 0 to 99 on exactly two digits. *)
Lemma padReadsBack_range n : 0 <= n <= 99 -> padReadsBack n = true.
Proof.
  intros Hn.
  assert (Hall : forallb (fun k => padReadsBack (Z.of_nat k)) (seq 0 100) = true)
    by (vm_compute; reflexivity).
  rewrite forallb_forall in Hall.
  specialize (Hall (Z.to_nat n)).
  rewrite Z2Nat.id in Hall by lia.
  apply Hall, in_seq. lia.
Qed.

Lemma pad_two_digits n :
  0 <= n <= 99 ->
  exists c1 c2, list_ascii_of_string (pad n) = [c1; c2] /\ twoDigits c1 c2 = Some n.
Proof.
  intros Hn. pose proof (padReadsBack_range n Hn) as Hp.
  unfold padReadsBack in Hp.
  destruct (list_ascii_of_string (pad n)) as [|c1 [|c2 [|? ?]]]; try discriminate.
  exists c1, c2. split; [reflexivity|].
  destruct (twoDigits c1 c2) as [k|]; [|discriminate].
  apply Z.eqb_eq in Hp. now subst.
Qed.

Lemma parse_getLocalDateString d :
  validDate d = true -> parseLocalDateString (getLocalDateString d) = Some d.
Proof.
  intros Hv. pose proof (validDate_bounds d Hv) as [Hm Hd].
  pose proof (daysInMonth_range (getFullYear d) (getMonth d)) as Hr.
  destruct (pad_two_digits (getMonth d + 1)) as (m1 & m2 & Em & Tm); [lia|].
  destruct (pad_two_digits (getDate d)) as (d1 & d2 & Ed & Td); [lia|].
  unfold parseLocalDateString, getLocalDateString.
  rewrite !list_ascii_of_string_app, Em, Ed. simpl list_ascii_of_string.
  rewrite !rev_app_distr. simpl.
  rewrite rev_involutive, string_of_list_ascii_of_string, parseYear_numToString.
  rewrite Tm, Td.
  replace (getMonth d + 1 - 1) with (getMonth d) by lia.
  destruct d as [y m dd]; simpl in *. now rewrite Hv.
Qed.

Lemma getLocalDateString_inj d e :
  validDate d = true -> validDate e = true ->
  getLocalDateString d = getLocalDateString e -> d = e.
Proof.
  intros Hd He Heq. apply parse_getLocalDateString in Hd, He.
  rewrite Heq in Hd. congruence.
Qed.

Lemma dayStrLeb_refl o : dayStrLeb o o = true.
Proof. destruct o as [s|]; simpl; [now rewrite String.eqb_refl | reflexivity]. Qed.

Lemma dayStrLeb_dates d e :
  validDate d = true -> validDate e = true ->
  dayStrLeb (Some (getLocalDateString d)) (Some (getLocalDateString e)) = dateLeb d e.
Proof.
  intros Hd He. simpl.
  rewrite (parse_getLocalDateString d Hd), (parse_getLocalDateString e He).
  destruct (String.eqb_spec (getLocalDateString d) (getLocalDateString e)) as [E|E]; simpl.
  - apply getLocalDateString_inj in E; auto. subst. now rewrite dateLeb_refl.
  - reflexivity.
Qed.

End DayStrings.

(** ** Rollover *)

Section Rollover.
Context {K : Constants}.



Lemma runUpdates_single (u : Updater) (g : GameState) :
  runUpdates [u] g = u g.
Proof. unfold runUpdates; simpl. now destruct (u g). Qed.


(** A first run, with [lastCheckDate] unset, records today and leaves
    everything else as it was. *)
Lemma rollover_first_run (todayStr : string) (clock : Date) (prev : GameState) :
  truthy (lastCheckDate prev) = false ->
  checkDateAndReset_updater todayStr clock prev = (withLastCheckDate prev todayStr, []).
Proof.
  intros Hf. unfold checkDateAndReset_updater. now rewrite Hf.
Qed.

End Rollover.


(** ** Completion *)

Section Completion.
Context {K : Constants}.

Lemma includes_snoc (l : list string) (x : string) : includes (l ++ [x]) x = true.
Proof.
  unfold includes. rewrite existsb_app; simpl.
  rewrite String.eqb_refl. now rewrite orb_true_r.
Qed.

Lemma find_first_map {A} (pred : A -> bool) (f : A -> A) (l : list A) :
  (forall a, pred (f a) = pred a) ->
  find_first pred (map f l) = option_map f (find_first pred l).
Proof.
  intros Hp. unfold find_first. induction l as [|a l IH]; simpl; [reflexivity|].
  rewrite Hp. destruct (pred a); [reflexivity | exact IH].
Qed.

Lemma find_first_holds {A} (pred : A -> bool) (l : list A) (a : A) :
  find_first pred l = Some a -> pred a = true.
Proof. unfold find_first. intros Hf. now apply find_some in Hf. Qed.

(** A habit the updater has just completed is found completed. *)
Lemma completed_habit_found (todayStr habitId : string) (hs : list Habit) (habit : Habit) :
  find_first (fun h => String.eqb (habit_id h) habitId) hs = Some habit ->
  find_first (fun h => String.eqb (habit_id h) habitId)
    (map (fun h => if String.eqb (habit_id h) habitId
                   then markCompleted todayStr h else h) hs)
  = Some (markCompleted todayStr habit).
Proof.
  intros Hf. rewrite find_first_map.
  - rewrite Hf; simpl. apply find_first_holds in Hf. now rewrite Hf.
  - intros a. destruct (String.eqb (habit_id a) habitId) eqn:E; simpl; now rewrite ?E.
Qed.

(** The updater does nothing on a state it has already updated for the
    same habit and day. *)
Lemma handleVerification_updater_twice
    (todayStr habitId proofId iso proofId' iso' : string) (prev : GameState) :
  handleVerification_updater todayStr habitId proofId' iso'
    (handleVerification_updater todayStr habitId proofId iso prev).1
  = ((handleVerification_updater todayStr habitId proofId iso prev).1, []).
Proof.
  unfold handleVerification_updater.
  destruct (find_first _ (habits prev)) as [habit|] eqn:Hf.
  - destruct (includes (completedDays habit) todayStr) eqn:Hi; simpl.
    + now rewrite Hf, Hi.
    + rewrite (completed_habit_found _ _ _ _ Hf); simpl.
      now rewrite includes_snoc.
  - simpl. now rewrite Hf.
Qed.

(** What the handler makes of the game state once habit [id] has been
    toggled. *)
Lemma handleVerification_toggled (env : Env) (img id : string) (app : App) :
  gameState (handleVerification env img (onToggleHabit id app)).1 =
    if truthy (Some id) then
      match tx env with
      | TxComplete =>
          (handleVerification_updater (getLocalDateString (now env)) id
             ("proof_" +:+ numToString (millis env)) (isoNow env) (gameState app)).1
      | _ => gameState app
      end
    else gameState app.
Proof.
  unfold handleVerification, onToggleHabit.
  cbn [verificationTargetId gameState vault screen].
  destruct (truthy (Some id)); cbn [negb]; [|reflexivity].
  destruct (tx env); reflexivity.
Qed.

(** C2. Once a completion of a habit has gone through, running the
    completion flow again for the same habit on the same calendar day
    leaves the whole game state as the first completion left it: no
    second day entry, no second award, no second proof record. *)
Theorem completion_idempotent
    (env1 env2 : Env) (img1 img2 id : string) (app : App) :
  let app1 := (handleVerification env1 img1 (onToggleHabit id app)).1 in
  let app2 := (handleVerification env2 img2 (onToggleHabit id app1)).1 in
  tx env1 = TxComplete ->
  getLocalDateString (now env2) = getLocalDateString (now env1) ->
  gameState app2 = gameState app1.
Proof.
  intros app1 app2 Htx Hday. subst app2.
  rewrite handleVerification_toggled.
  assert (H1 : gameState app1 =
               if truthy (Some id)
               then (handleVerification_updater (getLocalDateString (now env1)) id
                       ("proof_" +:+ numToString (millis env1)) (isoNow env1)
                       (gameState app)).1
               else gameState app).
  { subst app1. rewrite handleVerification_toggled. now rewrite Htx. }
  destruct (truthy (Some id)); [|reflexivity].
  destruct (tx env2); try reflexivity.
  rewrite Hday, H1. now rewrite handleVerification_updater_twice.
Qed.

(** C3. On a state holding a habit [habitId] not yet completed today,
    the completion updater appends today to the completed days of that
    habit, adds [POINTS_PER_COMPLETION] points and 100 experience,
    recomputes the rank index as
    [min (totalXP / XP_PER_RANK) (length RANKS - 1)], records the proof
    first in the log, and raises the level-up signal, carrying the final
    rank only, exactly when the new rank index exceeds the old one.  In
    the scenario of 950 experience at rank 0, 1000 experience per rank
    and three ranks, the result is 1050 experience, rank 1 and a
    level-up signal. *)
Theorem completion_effect
    (todayStr habitId proofId iso : string) (prev : GameState) (habit : Habit) :
  let r := handleVerification_updater todayStr habitId proofId iso prev in
  let newRank :=
    Z.min ((totalXP (stats prev) + 100) / XP_PER_RANK) (Z.of_nat (length RANKS) - 1) in
  find_first (fun h => String.eqb (habit_id h) habitId) (habits prev) = Some habit ->
  includes (completedDays habit) todayStr = false ->
  (length (habits r.1) = length (habits prev) /\
   forall (i : nat) (h : Habit), habits prev !! i = Some h ->
     habits r.1 !! i =
       Some (if String.eqb (habit_id h) habitId
             then {| habit_id := habit_id h; title := title h;
                     completedDays := completedDays h ++ [todayStr];
                     createdAt := createdAt h |}
             else h)) /\
  points (stats r.1) = points (stats prev) + POINTS_PER_COMPLETION /\
  totalXP (stats r.1) = totalXP (stats prev) + 100 /\
  rankIndex (stats r.1) = newRank /\
  proofLog r.1 =
    {| proof_id := proofId; habitId := habitId; date := iso |} :: proofLog prev /\
  (themes r.1 = themes prev /\ activeThemeId r.1 = activeThemeId prev /\
   lastCheckDate r.1 = lastCheckDate prev /\ volume r.1 = volume prev) /\
  (rankIndex (stats prev) < newRank -> r.2 = [LevelUp (rankAt newRank); Glitch]) /\
  (newRank <= rankIndex (stats prev) -> r.2 = []) /\
  (XP_PER_RANK = 1000 -> length RANKS = 3%nat ->
   totalXP (stats prev) = 950 -> rankIndex (stats prev) = 0 ->
   totalXP (stats r.1) = 1050 /\ rankIndex (stats r.1) = 1 /\
   r.2 = [LevelUp (RANKS !! 1%nat); Glitch]).
Proof.
  intros r newRank Hf Hi. subst r. unfold handleVerification_updater.
  rewrite Hf, Hi. cbn [fst snd habits stats points totalXP rankIndex proofLog
                        themes activeThemeId lastCheckDate volume].
  fold newRank.
  split.
  { split; [now rewrite length_map|].
    intros i h Hl. rewrite list_lookup_fmap, Hl. reflexivity. }
  do 5 (split; [tauto|]).
  split.
  { intros Hlt. apply Z.ltb_lt in Hlt. now rewrite Hlt. }
  split.
  { intros Hle. apply Z.ltb_ge in Hle. now rewrite Hle. }
  intros Hx Hr Hxp Hri.
  assert (Hn : newRank = 1).
  { subst newRank. rewrite Hx, Hr, Hxp. reflexivity. }
  rewrite Hn, Hxp, Hri. repeat split.
Qed.

(** Link to the handler: with a designated target and a proof saved,
    the handler commits exactly what the updater computes. *)
Lemma handleVerification_commits (env : Env) (img habitId : string) (app : App) :
  verificationTargetId app = Some habitId -> habitId <> "" ->
  tx env = TxComplete ->
  gameState (handleVerification env img app).1 =
    (handleVerification_updater (getLocalDateString (now env)) habitId
       ("proof_" +:+ numToString (millis env)) (isoNow env) (gameState app)).1.
Proof.
  intros Ht Hne Htx. unfold handleVerification. rewrite Ht, Htx; simpl.
  destruct (String.eqb_spec habitId ""); [contradiction|]. reflexivity.
Qed.

(** C5. When the proof cannot be saved, whatever the way the
    transaction fails, the completion is dropped: the game state, and
    with it the completed days, points, experience, rank index and
    proof log, is untouched; the vault is untouched too and nothing is
    signalled. *)
Theorem proof_save_failure_aborts (env : Env) (img : string) (app : App) :
  tx env <> TxComplete ->
  gameState (handleVerification env img app).1 = gameState app /\
  vault (handleVerification env img app).1 = vault app /\
  (handleVerification env img app).2 = [].
Proof.
  intros Htx. unfold handleVerification.
  destruct (negb (truthy (verificationTargetId app))); [repeat split|].
  destruct (tx env); [contradiction| | |]; repeat split.
Qed.

(** C4, as the code has it.  A request with no designated target is
    rejected before anything is saved.  A request whose target habit is
    missing or already completed today leaves the game state unchanged,
    but only after the proof has been handed to the vault: when that
    transaction completes, the payload is stored under the fresh id. *)
Theorem rejected_completion (env : Env) (img habitId : string) (app : App) :
  let proofId := "proof_" +:+ numToString (millis env) in
  let found := find_first (fun h => String.eqb (habit_id h) habitId)
                          (gameState app).(habits) in
  (truthy (verificationTargetId app) = false ->
     handleVerification env img app = (app, [])) /\
  (verificationTargetId app = Some habitId -> habitId <> "" ->
   (found = None \/
    exists habit, found = Some habit /\
      includes (completedDays habit) (getLocalDateString (now env)) = true) ->
   gameState (handleVerification env img app).1 = gameState app /\
   (tx env = TxComplete ->
      vault (handleVerification env img app).1 = <[proofId := img]> (vault app)) /\
   (tx env <> TxComplete ->
      vault (handleVerification env img app).1 = vault app)).
Proof.
  intros proofId found. split.
  - intros Hf. unfold handleVerification. now rewrite Hf.
  - intros Ht Hne Hrej. unfold handleVerification. rewrite Ht; simpl.
    destruct (String.eqb_spec habitId ""); [contradiction|]. simpl.
    fold proofId.
    destruct (tx env); simpl; repeat split; try congruence.
    unfold handleVerification_updater. fold found.
    destruct Hrej as [-> | (habit & -> & ->)]; reflexivity.
Qed.

End Completion.

(** The completion theorems at the sample state (10 May; habit [h1] is
    open that day, habit [h3] is already completed). *)

Lemma completion_idempotent_witness :
  let env := Sample.envAt Sample.may10 TxComplete in
  let app1 := (handleVerification (K := Sample.constants) env "img-a"
                 (onToggleHabit "h1" Sample.app)).1 in
  let app2 := (handleVerification (K := Sample.constants) env "img-b"
                 (onToggleHabit "h1" app1)).1 in
  gameState app2 = gameState app1 /\ totalXP (stats (gameState app2)) = 1050.
Proof.
  split.
  - apply (completion_idempotent (K := Sample.constants)
             (Sample.envAt Sample.may10 TxComplete)
             (Sample.envAt Sample.may10 TxComplete)
             "img-a" "img-b" "h1" Sample.app); reflexivity.
  - vm_compute. reflexivity.
Defined.

Lemma completion_effect_witness :
  let r := handleVerification_updater (K := Sample.constants)
             "2024-05-10" "h1" "proof_2" "2024-05-10T09:00:00.000Z" Sample.game in
  totalXP (stats r.1) = 1050 /\ rankIndex (stats r.1) = 1 /\
  r.2 = [LevelUp (Some "R1"); Glitch].
Proof.
  apply (completion_effect (K := Sample.constants)
           "2024-05-10" "h1" "proof_2" "2024-05-10T09:00:00.000Z"
           Sample.game Sample.run1); reflexivity.
Defined.

Lemma proof_save_failure_aborts_witness :
  let r := handleVerification (K := Sample.constants)
             (Sample.envAt Sample.may10 TxError) "img-a"
             (onToggleHabit "h1" Sample.app) in
  gameState r.1 = Sample.game /\ vault r.1 = vault Sample.app /\ r.2 = [].
Proof.
  apply (proof_save_failure_aborts (K := Sample.constants)
           (Sample.envAt Sample.may10 TxError) "img-a"
           (onToggleHabit "h1" Sample.app)).
  simpl. discriminate.
Defined.

Lemma rejected_completion_witness :
  let r := handleVerification (K := Sample.constants)
             (Sample.envAt Sample.may10 TxComplete) "img-a"
             (onToggleHabit "h3" Sample.app) in
  gameState r.1 = Sample.game /\
  vault r.1 = <["proof_1715300000000" := "img-a"]> (vault Sample.app).
Proof.
  destruct (rejected_completion (K := Sample.constants)
              (Sample.envAt Sample.may10 TxComplete) "img-a" "h3"
              (onToggleHabit "h3" Sample.app)) as [_ Hrej].
  destruct Hrej as (Hg & Hv & _).
  - reflexivity.
  - discriminate.
  - right. exists Sample.cook3. split; reflexivity.
  - split; [exact Hg | exact (Hv eq_refl)].
Defined.

(** C4, as stated, fails: a request for a habit already completed today
    is rejected only after its proof payload has been written. *)
Lemma rejected_completion_writes_proof :
  let env := Sample.envAt Sample.may10 TxComplete in
  let app := onToggleHabit "h3" Sample.app in
  let r := handleVerification (K := Sample.constants) env "img-a" app in
  find_first (fun h => String.eqb (habit_id h) "h3") (habits (gameState app))
    = Some Sample.cook3 /\
  includes (completedDays Sample.cook3) (getLocalDateString (now env)) = true /\
  gameState r.1 = gameState app /\
  vault app !! "proof_1715300000000" = None /\
  vault r.1 !! "proof_1715300000000" = Some "img-a" /\
  vault r.1 <> vault app.
Proof.
  assert (Hnone : vault (onToggleHabit "h3" Sample.app) !! "proof_1715300000000" = None).
  { simpl. apply lookup_singleton_ne. discriminate. }
  assert (Hsome : vault (handleVerification (K := Sample.constants)
                           (Sample.envAt Sample.may10 TxComplete) "img-a"
                           (onToggleHabit "h3" Sample.app)).1
                    !! "proof_1715300000000" = Some "img-a").
  { simpl. unfold put; simpl. apply lookup_insert_eq. }
  cbv zeta. repeat split; try reflexivity; try assumption.
  intros Heq. rewrite Heq, Hnone in Hsome. discriminate.
Qed.

(** ** Theme unlock *)

Section ThemeUnlock.
Context {K : Constants}.

(** C7. Unlocking a theme changes nothing when no theme has the given
    id, when the theme found is already unlocked, or when the points do
    not reach its cost.  Otherwise exactly the cost is taken from the
    points and the theme is marked unlocked, everything else staying as
    it was; with points equal to the cost the unlock goes through and
    leaves no points. *)
Theorem theme_unlock (themeId : string) (prev : GameState) :
  let r := (onUnlock themeId prev).1 in
  let found := find_first (fun t => String.eqb (theme_id t) themeId) (themes prev) in
  (found = None -> r = prev) /\
  (forall theme, found = Some theme -> unlocked theme = true -> r = prev) /\
  (forall theme, found = Some theme -> points (stats prev) < cost theme -> r = prev) /\
  (forall theme, found = Some theme -> unlocked theme = false ->
     cost theme <= points (stats prev) ->
     stats r = {| points := points (stats prev) - cost theme;
                  totalXP := totalXP (stats prev);
                  rankIndex := rankIndex (stats prev) |} /\
     (length (themes r) = length (themes prev) /\
      forall (i : nat) (t : ColorTheme), themes prev !! i = Some t ->
        themes r !! i =
          Some (if String.eqb (theme_id t) themeId
                then {| theme_id := theme_id t; hex := hex t; cost := cost t;
                        unlocked := true |}
                else t)) /\
     find_first (fun t => String.eqb (theme_id t) themeId) (themes r)
       = Some {| theme_id := theme_id theme; hex := hex theme; cost := cost theme;
                 unlocked := true |} /\
     (habits r = habits prev /\ activeThemeId r = activeThemeId prev /\
      proofLog r = proofLog prev /\ lastCheckDate r = lastCheckDate prev /\
      volume r = volume prev) /\
     (points (stats prev) = cost theme -> points (stats r) = 0)).
Proof.
  intros r found. subst r. unfold onUnlock. fold found.
  split; [intros ->; reflexivity|].
  split; [intros theme -> ->; reflexivity|].
  split.
  { intros theme -> Hlt. apply Z.ltb_lt in Hlt. rewrite Hlt.
    now rewrite orb_true_r. }
  intros theme Hf Hu Hle. rewrite Hf, Hu.
  replace (points (stats prev) <? cost theme) with false
    by (symmetry; apply Z.ltb_ge; lia).
  cbn [orb fst stats themes habits activeThemeId proofLog lastCheckDate volume points].
  split; [reflexivity|].
  split.
  { split; [now rewrite length_map|].
    intros i t Hl. rewrite list_lookup_fmap, Hl. reflexivity. }
  split.
  { unfold found in Hf. rewrite find_first_map.
    - rewrite Hf; simpl. apply find_first_holds in Hf. now rewrite Hf.
    - intros a. destruct (String.eqb (theme_id a) themeId) eqn:E; simpl; now rewrite ?E. }
  split; [tauto|]. intros Heq. lia.
Qed.

(** Unlocking never locks a theme again. *)
Lemma unlock_irreversible (themeId : string) (prev : GameState) (i : nat) (t : ColorTheme) :
  themes prev !! i = Some t -> unlocked t = true ->
  exists t', themes (onUnlock themeId prev).1 !! i = Some t' /\ unlocked t' = true.
Proof.
  intros Hl Hu. unfold onUnlock.
  destruct (find_first _ (themes prev)) as [theme|]; [|eauto].
  destruct (unlocked theme || (points (stats prev) <? cost theme)); [eauto|].
  cbn [fst themes]. rewrite list_lookup_fmap, Hl; simpl.
  destruct (String.eqb (theme_id t) themeId); eauto.
Qed.

End ThemeUnlock.

(** The unlock theorem at the sample state: 500 points, theme [blue]
    costs 500. *)
Lemma theme_unlock_witness :
  let r := (onUnlock "blue" Sample.game).1 in
  points (stats r) = 0 /\
  find_first (fun t => String.eqb (theme_id t) "blue") (themes r)
    = Some {| theme_id := "blue"; hex := "#0000FF"; cost := 500; unlocked := true |}.
Proof.
  destruct (theme_unlock "blue" Sample.game) as (_ & _ & _ & Hok).
  destruct (Hok {| theme_id := "blue"; hex := "#0000FF"; cost := 500; unlocked := false |}
              eq_refl eq_refl ltac:(simpl; lia)) as (_ & _ & Hfound & _ & Hzero).
  split; [apply Hzero; reflexivity | exact Hfound].
Defined.

(** ** Deleting a habit *)

Section DeleteHabit.
Context {K : Constants}.

(** Deleting removes every habit with the given id and every proof
    record of it, and nothing else. *)
Lemma delete_habit_removes (id : string) (prev : GameState) :
  let r := (onDeleteHabit id prev).1 in
  (forall h, In h (habits r) <-> In h (habits prev) /\ habit_id h <> id) /\
  (forall p, In p (proofLog r) <-> In p (proofLog prev) /\ habitId p <> id).
Proof.
  cbn zeta. unfold onDeleteHabit; cbn [fst habits proofLog].
  split; intros x; rewrite filter_In, negb_true_iff;
    (split; intros [Hin Hne]; split; auto;
     [ intros E; rewrite E, String.eqb_refl in Hne; discriminate
     | now apply String.eqb_neq ]).
Qed.

(** If every proof record belonged to a habit before, so it does after
    the deletion. *)
Lemma delete_habit_keeps_log_referenced (id : string) (prev : GameState) :
  proofsReferenced prev = true ->
  proofsReferenced (onDeleteHabit id prev).1 = true.
Proof.
  unfold proofsReferenced, onDeleteHabit; cbn [fst habits proofLog].
  rewrite !forallb_forall. intros Hall p Hp.
  apply filter_In in Hp as [Hp Hne]. specialize (Hall p Hp).
  apply existsb_exists in Hall as (h & Hh & Hid).
  apply existsb_exists. exists h. split; [|exact Hid].
  apply filter_In. split; [exact Hh|].
  apply String.eqb_eq in Hid. rewrite Hid. exact Hne.
Qed.

(** The deletion is a game-state update only: the vault is not touched. *)
Lemma delete_habit_leaves_vault (id : string) (app : App) :
  vault (setGameState (onDeleteHabit id) app).1 = vault app.
Proof. reflexivity. Qed.

End DeleteHabit.

(** C9 at the sample state.  Deleting habit [h3] removes the habit and its
    proof record [proof_1], and the payload of [proof_1] is still in the
    vault afterwards: the handler never calls [deleteProofImage]. *)
Theorem delete_habit_orphans_payload :
  let app' := step (K := Sample.constants) (Sample.envAt Sample.may10 TxComplete)
                (DeleteHabit "h3") Sample.app in
  habits (gameState app') = [Sample.run1; Sample.read2] /\
  proofLog (gameState app') = [] /\
  vault app' !! "proof_1" = Some "data:image/png;base64,AAAA" /\
  vault app' <> (deleteProofImage TxComplete "proof_1" (vault Sample.app)).2.
Proof.
  assert (Hv : vault Sample.app !! "proof_1" = Some "data:image/png;base64,AAAA")
    by apply lookup_singleton_eq.
  cbv zeta. repeat split; try exact Hv.
  change (vault Sample.app <> delete "proof_1" (vault Sample.app)).
  intros Heq. pose proof (lookup_delete_eq (vault Sample.app) "proof_1") as Hd.
  rewrite <- Heq, Hv in Hd. discriminate.
Qed.

(** ** Reset *)

Section Reset.
Context {K : Constants}.

(** C10. A reset replaces the game state by the initial one (no habits,
    no points, no experience, rank 0, the initial themes with [red]
    active, an empty proof log) with [lastCheckDate] set to today; the
    volume is the volume from before the reset, and the vault is left
    as it was, so every stored payload is still there while the log no
    longer refers to any. *)
Theorem reset_frame (env : Env) (app : App) :
  let r := (handleReset env app).1 in
  gameState r =
    {| habits := [];
       stats := {| points := 0; totalXP := 0; rankIndex := 0 |};
       themes := INITIAL_THEMES;
       activeThemeId := "red";
       proofLog := [];
       lastCheckDate := Some (getLocalDateString (now env));
       volume := volume (gameState app) |} /\
  (habits (gameState r) = habits initialGameState /\
   stats (gameState r) = stats initialGameState /\
   themes (gameState r) = themes initialGameState /\
   activeThemeId (gameState r) = activeThemeId initialGameState /\
   proofLog (gameState r) = proofLog initialGameState) /\
  volume (gameState r) = volume (gameState app) /\
  vault r = vault app /\
  (forall id payload, vault app !! id = Some payload ->
     vault r !! id = Some payload /\
     forall p, In p (proofLog (gameState r)) -> proof_id p <> id).
Proof.
  cbn zeta. unfold handleReset; cbn [fst gameState vault proofLog].
  repeat split; try reflexivity; try assumption.
  intros p [].
Qed.

End Reset.

(** ** Backup and restore *)

Section BackupRoundTrip.
Context {K : Constants}.

Lemma restoreAll_list_to_map (proofs : list ProofEntry) :
  restoreAll proofs = list_to_map (rev (map entryPair proofs)).
Proof.
  unfold restoreAll. rewrite <- fold_left_rev_right, <- map_rev.
  induction (rev proofs) as [|p l IH]; simpl; [reflexivity|].
  now rewrite IH.
Qed.

(** Putting back the entries of a store, in whatever order they are
    listed, rebuilds that store. *)
Lemma restoreAll_entries (st : gmap string string) (proofs : list ProofEntry) :
  map entryPair proofs ≡ₚ map_to_list st -> restoreAll proofs = st.
Proof.
  intros Hp. rewrite restoreAll_list_to_map.
  rewrite <- (list_to_map_to_list st).
  apply list_to_map_proper.
  - change (NoDup (map fst (rev (map entryPair proofs)))).
    rewrite map_rev, <- Permutation_rev.
    change (NoDup (map entryPair proofs).*1).
    rewrite Hp. apply NoDup_fst_map_to_list.
  - now rewrite <- Permutation_rev.
Qed.

Lemma getAllProofs_pairs (st : gmap string string) :
  map entryPair (map (fun kv => mkEntry kv.1 kv.2) (map_to_list st)) = map_to_list st.
Proof.
  rewrite map_map. rewrite <- (map_id (map_to_list st)) at 2.
  apply map_ext. now intros [k v].
Qed.

Lemma clearAndRestore_exported (st st' : gmap string string) :
  clearAndRestoreProofs TxComplete
    (map (fun kv => mkEntry kv.1 kv.2) (map_to_list st)) st' = (Resolved tt, st).
Proof.
  unfold clearAndRestoreProofs. f_equal.
  destruct (0 <? Z.of_nat (length _)) eqn:E.
  - apply restoreAll_entries. now rewrite getAllProofs_pairs.
  - apply Z.ltb_ge in E. rewrite length_map in E.
    destruct (map_to_list st) as [|kv l] eqn:El; [|simpl in E; lia].
    symmetry. now apply map_to_list_empty_iff.
Qed.

Lemma jsonNumber_survives (f : float) :
  survivesJson f = true -> jsonNumber f = JDouble f.
Proof.
  unfold survivesJson, jsonNumber. intros Hs.
  apply andb_true_iff in Hs as [Hf Hz]. apply negb_true_iff in Hz.
  now rewrite Hf, Hz.
Qed.

Lemma clone_array {A} (enc : A -> JSValue) (l : list A) :
  (forall x, match enc x with JUndefined => JNull | _ => jsonClone (enc x) end = enc x) ->
  map (fun e => match e with JUndefined => JNull | _ => jsonClone e end) (map enc l)
  = map enc l.
Proof.
  intros Henc. rewrite map_map. apply map_ext. exact Henc.
Qed.

Lemma readAll_encoded {A} (enc : A -> JSValue) (read : JSValue -> option A) (l : list A) :
  (forall x, read (enc x) = Some x) -> readAll read (map enc l) = Some l.
Proof.
  intros Hr. induction l as [|x l IH]; [reflexivity|].
  cbn [map readAll]. now rewrite Hr, IH.
Qed.

Lemma clone_encodeHabit (h : Habit) : jsonClone (encodeHabit h) = encodeHabit h.
Proof.
  unfold encodeHabit. cbn [jsonClone]. rewrite (clone_array JString); reflexivity.
Qed.

Lemma decode_encodeHabit (h : Habit) : decodeHabit (encodeHabit h) = Some h.
Proof.
  unfold decodeHabit, encodeHabit. cbn.
  rewrite (readAll_encoded JString asString) by reflexivity. now destruct h.
Qed.

Lemma decode_encodeProof (p : Proof) : decodeProof (encodeProof p) = Some p.
Proof. now destruct p. Qed.

Lemma decode_encodeTheme (t : ColorTheme) : decodeTheme (encodeTheme t) = Some t.
Proof. now destruct t. Qed.

Lemma decode_encodeStats (st : Stats) : decodeStats (encodeStats st) = Some st.
Proof. now destruct st. Qed.

Lemma decode_encodeEntry (p : ProofEntry) : decodeEntry (encodeEntry p) = Some p.
Proof. now destruct p. Qed.

(** A game state whose volume survives JSON is written and parsed back
    as the value it was. *)
Lemma clone_encodeGameState (g : GameState) :
  survivesJson (volume g) = true ->
  jsonClone (encodeGameState g) = encodeGameState g.
Proof.
  intros Hv. unfold encodeGameState.
  destruct (lastCheckDate g) as [d|]; cbn [optionalProp app jsonClone];
    rewrite (jsonNumber_survives _ Hv);
    rewrite (clone_array encodeHabit) by (intros h; apply clone_encodeHabit);
    rewrite (clone_array encodeTheme) by reflexivity;
    rewrite (clone_array encodeProof) by reflexivity;
    reflexivity.
Qed.

Lemma decode_encodeGameState (g : GameState) :
  decodeGameState (encodeGameState g) = Some g.
Proof.
  unfold decodeGameState, encodeGameState.
  destruct g as [hs [p x r] ts a pl [d|] vol]; cbn;
    rewrite (readAll_encoded encodeHabit decodeHabit) by apply decode_encodeHabit;
    rewrite (readAll_encoded encodeTheme decodeTheme) by apply decode_encodeTheme;
    rewrite (readAll_encoded encodeProof decodeProof) by apply decode_encodeProof;
    reflexivity.
Qed.

(** The file an export writes is read back as the document exported. *)
Lemma readBackup_exported (iso : string) (g : GameState) (proofs : list ProofEntry) :
  survivesJson (volume g) = true ->
  let doc := {| version := Some "1.0"; timestamp := Some iso;
                doc_gameState := Some g; doc_proofs := Some proofs |} in
  exists data, jsonStringify (encodeDocument doc) = Some (JsonText data) /\
               readBackup data = Some doc.
Proof.
  intros Hv doc.
  exists (JObject [ ("version", JString "1.0"); ("timestamp", JString iso);
                    ("gameState", encodeGameState g);
                    ("proofs", JArray (map encodeEntry proofs)) ]).
  split.
  - unfold doc, encodeDocument, jsonStringify.
    cbn [version timestamp doc_gameState doc_proofs optionalProp app jsonClone].
    rewrite (clone_array encodeEntry) by reflexivity.
    now rewrite (clone_encodeGameState g Hv).
  - set (obj := JObject _).
    assert (H1 : getProp "version" obj = JString "1.0") by reflexivity.
    assert (H2 : getProp "timestamp" obj = JString iso) by reflexivity.
    assert (H3 : getProp "gameState" obj = encodeGameState g) by reflexivity.
    assert (H4 : getProp "proofs" obj = JArray (map encodeEntry proofs)) by reflexivity.
    unfold readBackup. rewrite H1, H2, H3, H4. cbn [asOptionalString].
    unfold readField.
    change (jsTruthy (encodeGameState g)) with true.
    cbn [jsTruthy asArrayOf]. rewrite decode_encodeGameState.
    rewrite (readAll_encoded encodeEntry decodeEntry) by apply decode_encodeEntry.
    reflexivity.
Qed.

(** C6. When the export goes through, for a game state whose volume is a
    finite number other than negative zero (as every volume the
    interface stores is), the file written holds the game state and
    every id and payload of the vault.  Importing that file into the
    application in any state whatever, with any vault, gives the
    exported game state and a vault with exactly the exported ids and
    payloads; an import whose vault transaction does not complete leaves
    the importing application as it was. *)
Theorem backup_round_trip (envE envI : Env) (app app' : App) :
  tx envE = TxComplete ->
  survivesJson (volume (gameState app)) = true ->
  exists content doc proofs,
    exportFile envE app = (Some (JsonText content), []) /\
    readBackup content = Some doc /\
    doc_gameState doc = Some (gameState app) /\
    doc_proofs doc = Some proofs /\
    (forall id payload,
       In {| entry_id := id; data := payload |} proofs <->
       vault app !! id = Some payload) /\
    (tx envI = TxComplete ->
       exists r, importFile envI (JsonText content) app' = Some r /\
                 gameState r.1 = gameState app /\
                 vault r.1 = vault app /\
                 r.2 = []) /\
    (tx envI <> TxComplete ->
       importFile envI (JsonText content) app'
       = Some (app', [Alert "Import sequence failed. Data corrupted or incompatible version."])).
Proof.
  intros HtxE Hv.
  destruct (readBackup_exported (isoNow envE) (gameState app)
              (map (fun kv => mkEntry kv.1 kv.2) (map_to_list (vault app))) Hv)
    as (content & Hs & Hr).
  exists content. eexists. eexists.
  split.
  { unfold exportFile, handleExport, getAllProofs. rewrite HtxE. now rewrite Hs. }
  split; [exact Hr|]. cbn [doc_gameState doc_proofs].
  split; [reflexivity|]. split; [reflexivity|]. split.
  { intros id payload. rewrite in_map_iff. split.
    - intros ([k v] & [= -> ->] & Hin).
      apply list_elem_of_In in Hin. now apply elem_of_map_to_list in Hin.
    - intros Hl. exists (id, payload). split; [reflexivity|].
      apply list_elem_of_In. now apply elem_of_map_to_list. }
  unfold importFile. cbn [jsonParse]. rewrite Hr. cbn [option_map].
  unfold handleImport. cbn [doc_gameState doc_proofs].
  split.
  - intros HtxI. rewrite HtxI, clearAndRestore_exported.
    eexists. split; [reflexivity|]. repeat split.
  - intros HtxI. destruct (tx envI); [contradiction| | |]; cbn; now destruct app'.
Qed.

(** A file that is not JSON is refused and nothing changes. *)
Lemma import_malformed_file (env : Env) (app : App) :
  importFile env Malformed app
  = Some (app, [Alert "Import sequence failed. Data corrupted or incompatible version."]).
Proof. reflexivity. Qed.

(** A volume that is not finite does not survive the file: it comes back
    as [null]. *)
Example volume_nan_is_written_as_null :
  getProp "volume" (jsonClone (encodeGameState
     {| habits := []; stats := {| points := 0; totalXP := 0; rankIndex := 0 |};
        themes := []; activeThemeId := "red"; proofLog := [];
        lastCheckDate := None; volume := PrimFloat.nan |})) = JNull.
Proof. reflexivity. Qed.

(** Every volume the interface stores survives the file: the initial
    volume and the volume of each segment of the volume bar. *)
Lemma interface_volumes_survive_json (segment : Z) :
  In segment VolumeBar.volumeSegments ->
  survivesJson (VolumeBar.segmentVolume segment) = true /\
  survivesJson (volume initialGameState) = true.
Proof.
  intros Hin. split; [|reflexivity].
  assert (Hall : forallb (fun k => survivesJson (VolumeBar.segmentVolume k))
                   VolumeBar.volumeSegments = true) by (vm_compute; reflexivity).
  rewrite forallb_forall in Hall. now apply Hall.
Qed.

(** A document lacking the game state or the proofs is refused and
    nothing changes. *)
Lemma import_invalid_document (env : Env) (doc : BackupDocument) (app : App) :
  doc_gameState doc = None \/ doc_proofs doc = None ->
  (handleImport env doc app).1 = app.
Proof.
  unfold handleImport. intros [-> | ->]; [reflexivity|].
  now destruct (doc_gameState doc).
Qed.

End BackupRoundTrip.

(** The round trip at the sample state: the export of the sample
    application is imported into the initial application, whose vault is
    empty. *)
Lemma backup_round_trip_witness :
  exists content r,
    exportFile (Sample.envAt Sample.may10 TxComplete) Sample.app
      = (Some (JsonText content), []) /\
    importFile (Sample.envAt Sample.may10 TxComplete) (JsonText content)
      (initialApp (K := Sample.constants)) = Some r /\
    gameState r.1 = Sample.game /\
    vault r.1 = vault Sample.app.
Proof.
  destruct (backup_round_trip (Sample.envAt Sample.may10 TxComplete)
              (Sample.envAt Sample.may10 TxComplete) Sample.app
              (initialApp (K := Sample.constants)) eq_refl eq_refl)
    as (content & doc & proofs & Hexp & _ & _ & _ & _ & Himp & _).
  destruct (Himp eq_refl) as (r & Hr & Hg & Hv & _).
  exists content, r. repeat split; assumption.
Defined.

(** ** [lastCheckDate] along a run *)

Section LastCheckDate.
Context {K : Constants}.

Lemma checkedBy_mono (d e : Date) (g : GameState) :
  checkedBy d g = true -> dateLeb d e = true -> checkedBy e g = true.
Proof.
  unfold checkedBy. destruct (lastCheckDate g) as [s|]; [|reflexivity].
  destruct (parseLocalDateString s) as [x|]; [|discriminate].
  intros. now apply dateLeb_trans with d.
Qed.

Lemma updater_lastCheckDate (todayStr : string) (clock : Date) (prev : GameState) :
  let r := (checkDateAndReset_updater todayStr clock prev).1 in
  lastCheckDate r = lastCheckDate prev \/ lastCheckDate r = Some todayStr.
Proof.
  cbn zeta. unfold checkDateAndReset_updater.
  destruct (truthy (lastCheckDate prev) && differsFrom (lastCheckDate prev) todayStr).
  - destruct (0 <? countMissed _ (habits prev)); right; reflexivity.
  - destruct (negb (truthy (lastCheckDate prev))); [right | left]; reflexivity.
Qed.

Lemma verification_lastCheckDate (env : Env) (img : string) (app : App) :
  lastCheckDate (gameState (handleVerification env img app).1)
  = lastCheckDate (gameState app).
Proof.
  unfold handleVerification.
  destruct (negb (truthy (verificationTargetId app))); [reflexivity|].
  destruct (tx env); cbn [saveProofImage fst gameState]; try reflexivity.
  unfold handleVerification_updater.
  destruct (find_first _ (habits (gameState app))) as [h|]; [|reflexivity].
  destruct (includes (completedDays h) _); reflexivity.
Qed.

(** Every intent but an import keeps [lastCheckDate] or sets it to the
    day the handler read from the clock. *)
Lemma step_lastCheckDate (env : Env) (i : Intent) (app : App) :
  isImport i = false ->
  lastCheckDate (gameState (step env i app)) = lastCheckDate (gameState app) \/
  lastCheckDate (gameState (step env i app)) = Some (getLocalDateString (now env)).
Proof.
  intros Hi. destruct i; try discriminate Hi; cbn [step];
    try (left; reflexivity).
  - unfold tick, setGameState, checkDateAndReset. cbn [fst gameState].
    rewrite runUpdates_single. apply updater_lastCheckDate.
  - left. apply verification_lastCheckDate.
  - right. reflexivity.
  - left. unfold setGameState, onUnlock; cbn [fst gameState].
    destruct (find_first _ (themes (gameState app))) as [t|]; [|reflexivity].
    destruct (unlocked t || _); reflexivity.
Qed.

Lemma step_monotone (env : Env) (i : Intent) (app : App) :
  validDate (now env) = true -> isImport i = false ->
  checkedBy (now env) (gameState app) = true ->
  checkedBy (now env) (gameState (step env i app)) = true /\
  dayStrLeb (lastCheckDate (gameState app))
            (lastCheckDate (gameState (step env i app))) = true.
Proof.
  intros Hv Hi Hc.
  destruct (step_lastCheckDate env i app Hi) as [E|E].
  - unfold checkedBy in *. rewrite E. split; [exact Hc | apply dayStrLeb_refl].
  - unfold checkedBy in *. rewrite E.
    rewrite (parse_getLocalDateString _ Hv), dateLeb_refl.
    split; [reflexivity|].
    destruct (lastCheckDate (gameState app)) as [s|]; [|reflexivity].
    cbn [dayStrLeb]. rewrite (parse_getLocalDateString _ Hv).
    destruct (parseLocalDateString s); [|discriminate].
    rewrite Hc. apply orb_true_r.
Qed.

Lemma clockMonotone_snoc (tr : list (Env * Intent)) (x : Env * Intent) :
  clockMonotone (tr ++ [x]) = true ->
  clockMonotone tr = true /\ validDate (now x.1) = true /\
  forall y, last tr = Some y -> dateLeb (now y.1) (now x.1) = true.
Proof.
  induction tr as [|a tr IH].
  - simpl. rewrite !andb_true_r. intros Hx. repeat split; auto. discriminate.
  - cbn [app clockMonotone]. rewrite !andb_true_iff. intros [[Hva Hnext] Hrest].
    destruct (IH Hrest) as (Htr & Hvx & Hlast).
    destruct tr as [|b tr].
    + simpl in *. repeat split; auto. intros y [= <-]. exact Hnext.
    + cbn [app] in Hnext. repeat split; auto.
Qed.

Lemma run_snoc (tr : list (Env * Intent)) (x : Env * Intent) (app : App) :
  run (tr ++ [x]) app = step x.1 x.2 (run tr app).
Proof. unfold run. now rewrite fold_left_app. Qed.

Lemma noImport_snoc (tr : list (Env * Intent)) (x : Env * Intent) :
  noImport (tr ++ [x]) = true -> noImport tr = true /\ isImport x.2 = false.
Proof.
  unfold noImport. rewrite forallb_app; simpl.
  rewrite !andb_true_iff, negb_true_iff. tauto.
Qed.

(** Along a run with a clock that never moves back, [lastCheckDate] is
    never ahead of the clock. *)
Lemma run_checked (tr : list (Env * Intent)) :
  clockMonotone tr = true -> noImport tr = true ->
  match last tr with
  | Some y => checkedBy (now y.1) (gameState (run tr initialApp)) = true
  | None => lastCheckDate (gameState (run tr initialApp)) = None
  end.
Proof.
  induction tr as [|x tr IH] using rev_ind; intros Hm Hn; [reflexivity|].
  rewrite last_snoc, run_snoc.
  apply clockMonotone_snoc in Hm as (Hm & Hvx & Hlast).
  apply noImport_snoc in Hn as (Hn & Hix).
  specialize (IH Hm Hn).
  apply step_monotone; auto.
  destruct (last tr) as [y|].
  - apply checkedBy_mono with (now y.1); auto.
  - unfold checkedBy. now rewrite IH.
Qed.

(** C8, as the code has it.  Along a run from the initial state with no
    import, in which the calendar day the handlers read from the clock
    never moves back, every operation (rollover check, completion,
    reset, or any other intent) leaves [lastCheckDate] where it was or
    moves it to a later calendar day. *)
Theorem lastCheckDate_monotone (tr : list (Env * Intent)) (env : Env) (i : Intent) :
  let before := run tr initialApp in
  let after := step env i before in
  clockMonotone (tr ++ [(env, i)]) = true ->
  noImport (tr ++ [(env, i)]) = true ->
  dayStrLeb (lastCheckDate (gameState before))
            (lastCheckDate (gameState after)) = true.
Proof.
  intros before after Hm Hn. subst before after.
  apply clockMonotone_snoc in Hm as (Hm & Hvx & Hlast).
  apply noImport_snoc in Hn as (Hn & Hix).
  pose proof (run_checked tr Hm Hn) as Hc.
  apply step_monotone; auto.
  destruct (last tr) as [y|].
  - apply checkedBy_mono with (now y.1); auto.
  - unfold checkedBy. now rewrite Hc.
Qed.

End LastCheckDate.

(** The monotonicity theorem on a sample run: a check on 9 May, a reset
    the same day, then a check on 10 May. *)
Lemma lastCheckDate_monotone_witness :
  let tr := [ (Sample.envAt Sample.may9 TxComplete, Tick);
              (Sample.envAt Sample.may9 TxComplete, ResetAll) ] in
  let before := run (K := Sample.constants) tr (initialApp (K := Sample.constants)) in
  let after := step (K := Sample.constants)
                 (Sample.envAt Sample.may10 TxComplete) Tick before in
  dayStrLeb (lastCheckDate (gameState before)) (lastCheckDate (gameState after)) = true /\
  lastCheckDate (gameState before) = Some "2024-05-09" /\
  lastCheckDate (gameState after) = Some "2024-05-10".
Proof.
  split.
  - apply (lastCheckDate_monotone (K := Sample.constants)
             [ (Sample.envAt Sample.may9 TxComplete, Tick);
               (Sample.envAt Sample.may9 TxComplete, ResetAll) ]
             (Sample.envAt Sample.may10 TxComplete) Tick); reflexivity.
  - split; reflexivity.
Defined.

(** C8, as stated, fails: the check compares [lastCheckDate] with today
    for inequality only, so a clock showing an earlier day moves the date
    back. *)
Lemma lastCheckDate_can_move_back :
  let tr := [ (Sample.envAt Sample.may10 TxComplete, Tick) ] in
  let before := run (K := Sample.constants) tr (initialApp (K := Sample.constants)) in
  let after := step (K := Sample.constants)
                 (Sample.envAt Sample.may9 TxComplete) Tick before in
  noImport (tr ++ [(Sample.envAt Sample.may9 TxComplete, Tick)]) = true /\
  lastCheckDate (gameState before) = Some "2024-05-10" /\
  lastCheckDate (gameState after) = Some "2024-05-09" /\
  dayStrLeb (lastCheckDate (gameState before)) (lastCheckDate (gameState after)) = false.
Proof. repeat split. Qed.

(** * Further properties of the code *)

(** ** The proof vault *)

Section VaultFacts.

(** X1. A payload saved under an id is what a later read of that id
    gives, an empty payload reading back as [null]; reads of other ids
    are not affected, and a save that does not complete changes no read. *)
Theorem saved_proof_is_read_back
    (o : TxOutcome) (id imageData : string) (st : gmap string string) :
  let st' := (saveProofImage TxComplete id imageData st).2 in
  getProofImage TxComplete id st'
    = Resolved (if String.eqb imageData "" then None else Some imageData) /\
  (forall id', id' <> id ->
     getProofImage TxComplete id' st' = getProofImage TxComplete id' st) /\
  (o <> TxComplete -> (saveProofImage o id imageData st).2 = st).
Proof.
  cbn zeta. unfold saveProofImage, getProofImage, put; cbn [snd entry_id data].
  split; [now rewrite lookup_insert_eq|].
  split.
  - intros id' Hne. now rewrite lookup_insert_ne.
  - intros Ho. destruct o; [contradiction| | |]; reflexivity.
Qed.

(** X2. After a completed deletion the id reads as [null] and every other
    id reads as before; deleting an id the vault does not hold leaves the
    vault as it was. *)
Theorem deleted_proof_is_gone (id : string) (st : gmap string string) :
  let st' := (deleteProofImage TxComplete id st).2 in
  getProofImage TxComplete id st' = Resolved None /\
  (forall id', id' <> id ->
     getProofImage TxComplete id' st' = getProofImage TxComplete id' st) /\
  (st !! id = None -> st' = st).
Proof.
  cbn zeta. unfold deleteProofImage, getProofImage; cbn [snd].
  split; [now rewrite lookup_delete_eq|].
  split.
  - intros id' Hne. now rewrite lookup_delete_ne.
  - intros Hn. now apply delete_id.
Qed.

Lemma list_to_map_first (id : string) (l : list ProofEntry) :
  (list_to_map (map entryPair l) : gmap string string) !! id
  = option_map data (find_first (fun p => String.eqb (entry_id p) id) l).
Proof.
  unfold find_first. induction l as [|p l IH]; [reflexivity|].
  cbn [map list_to_map foldr List.find entryPair fst snd].
  change (foldr (λ '(k, v), <[k:=v]>) ∅ (map entryPair l))
    with (list_to_map (map entryPair l) : gmap string string).
  destruct (String.eqb_spec (entry_id p) id) as [->|Hne].
  - now rewrite lookup_insert_eq.
  - now rewrite lookup_insert_ne.
Qed.

Lemma restoreAll_lookup (id : string) (proofs : list ProofEntry) :
  restoreAll proofs !! id = lastPayload id proofs.
Proof.
  rewrite restoreAll_list_to_map, <- map_rev. apply list_to_map_first.
Qed.

Lemma restore_lookup_any (proofs : list ProofEntry) (st : gmap string string) (id : string) :
  (if 0 <? Z.of_nat (length proofs) then restoreAll proofs else ∅) !! id
  = lastPayload id proofs.
Proof.
  destruct (0 <? Z.of_nat (length proofs)) eqn:E; [apply restoreAll_lookup|].
  apply Z.ltb_ge in E. destruct proofs; [reflexivity | simpl in E; lia].
Qed.

(** X3. A completed restore replaces the vault: whatever it held before,
    an id then reads as the payload of the last entry of the array with
    that id, and an id the array does not mention is absent.  A restore
    that does not complete leaves the vault as it was. *)
Theorem restore_replaces_vault
    (o : TxOutcome) (proofs : list ProofEntry) (st : gmap string string) (id : string) :
  (clearAndRestoreProofs TxComplete proofs st).2 !! id = lastPayload id proofs /\
  ((forall p, In p proofs -> entry_id p <> id) ->
     (clearAndRestoreProofs TxComplete proofs st).2 !! id = None) /\
  (o <> TxComplete -> clearAndRestoreProofs o proofs st = (Rejected, st)).
Proof.
  assert (Hl : (clearAndRestoreProofs TxComplete proofs st).2 !! id = lastPayload id proofs).
  { unfold clearAndRestoreProofs; cbn [snd].
    destruct (0 <? Z.of_nat (length proofs)) eqn:E; [apply restoreAll_lookup|].
    apply Z.ltb_ge in E. destruct proofs; [reflexivity | simpl in E; lia]. }
  split; [exact Hl|]. split.
  - intros Hno. rewrite Hl. unfold lastPayload, find_first.
    destruct (List.find _ (rev proofs)) as [p|] eqn:Hf; [|reflexivity].
    apply find_some in Hf as [Hin Heq]. apply in_rev in Hin.
    apply String.eqb_eq in Heq. now destruct (Hno p Hin).
  - intros Ho. destruct o; [contradiction| | |]; reflexivity.
Qed.

(** X4. The listing of the vault holds every stored id once, with its
    payload, and nothing else; it has as many entries as the vault. *)
Theorem getAllProofs_lists_vault (st : gmap string string) :
  exists proofs,
    getAllProofs TxComplete st = Resolved proofs /\
    NoDup (map entry_id proofs) /\
    length proofs = size st /\
    forall id payload,
      In {| entry_id := id; data := payload |} proofs <-> st !! id = Some payload.
Proof.
  unfold getAllProofs. eexists. split; [reflexivity|].
  split.
  { rewrite map_map. cbn [entry_id].
    change (NoDup (map_to_list st).*1). apply NoDup_fst_map_to_list. }
  split.
  { rewrite length_map. apply length_map_to_list. }
  intros id payload. rewrite in_map_iff. split.
  - intros ([k v] & [= -> ->] & Hin).
    apply list_elem_of_In in Hin. now apply elem_of_map_to_list in Hin.
  - intros Hl. exists (id, payload). split; [reflexivity|].
    apply list_elem_of_In. now apply elem_of_map_to_list.
Qed.

End VaultFacts.

(** ** Day strings and the calendar of [ProgressView] *)

Section CalendarFacts.

Lemma getLocalDateString_nonempty d :
  validDate d = true -> getLocalDateString d <> "".
Proof.
  intros Hv E. apply parse_getLocalDateString in Hv. rewrite E in Hv. discriminate.
Qed.

(** X5. The test of the rollover check is exact on calendar days: the
    string of a valid date is truthy, and it differs from the string of
    another valid date exactly when the two dates differ. *)
Theorem day_change_detected (d e : Date) :
  validDate d = true -> validDate e = true ->
  truthy (Some (getLocalDateString d)) = true /\
  (differsFrom (Some (getLocalDateString d)) (getLocalDateString e) = true <-> d <> e).
Proof.
  intros Hd He. split.
  - cbn [truthy]. apply negb_true_iff, String.eqb_neq.
    now apply getLocalDateString_nonempty.
  - cbn [differsFrom]. rewrite negb_true_iff, String.eqb_neq. split.
    + intros Hne ->. now apply Hne.
    + intros Hne E. apply Hne. now apply getLocalDateString_inj.
Qed.

Lemma padStartAgrees_range n :
  0 <= n <= 99 -> ProgressView.padStart 2 "0" (numToString n) = pad n.
Proof.
  intros Hn.
  assert (Hall : forallb (fun k => ProgressView.padStartAgrees (Z.of_nat k)) (seq 0 100) = true)
    by (vm_compute; reflexivity).
  rewrite forallb_forall in Hall.
  specialize (Hall (Z.to_nat n)). rewrite Z2Nat.id in Hall by lia.
  apply String.eqb_eq. apply Hall, in_seq. lia.
Qed.

Lemma dateStr_getLocalDateString (g : GameState) (currentDate : Date) (day : Z) :
  0 <= getMonth currentDate <= 11 -> 0 <= day <= 99 ->
  ProgressView.dateStr (ProgressView.getDayDetails g currentDate day)
  = getLocalDateString (mkDate (getFullYear currentDate) (getMonth currentDate) day).
Proof.
  intros Hm Hd. unfold ProgressView.getDayDetails, getLocalDateString.
  cbn [ProgressView.dateStr getFullYear getMonth getDate].
  rewrite !padStartAgrees_range by lia. reflexivity.
Qed.

(** X6. The calendar and the application write a day the same way: for a
    month 0 to 11 and a day 0 to 99 the [dateStr] of [getDayDetails] is
    the string [getLocalDateString] gives for that year, month and day,
    and the habits listed for the day are those whose completed days
    hold that string. *)
Theorem calendar_day_string_agrees (g : GameState) (currentDate : Date) (day : Z) :
  let today := getLocalDateString
                 (mkDate (getFullYear currentDate) (getMonth currentDate) day) in
  0 <= getMonth currentDate <= 11 -> 0 <= day <= 99 ->
  ProgressView.dateStr (ProgressView.getDayDetails g currentDate day) = today /\
  forall h, In h (ProgressView.completedHabits (ProgressView.getDayDetails g currentDate day))
            <-> In h (habits g) /\ includes (completedDays h) today = true.
Proof.
  intros today Hm Hd.
  pose proof (dateStr_getLocalDateString g currentDate day Hm Hd) as Hs.
  split; [exact Hs|]. intros h. fold today in Hs.
  unfold ProgressView.getDayDetails in *.
  cbn [ProgressView.completedHabits ProgressView.dateStr] in *.
  rewrite Hs. apply filter_In.
Qed.

Lemma grid_daysInMonth (currentDate : Date) :
  0 <= getMonth currentDate <= 11 ->
  ProgressView.daysInMonth currentDate
  = DateOracle.daysInMonth (ProgressView.makeFullYear (getFullYear currentDate))
                           (getMonth currentDate).
Proof.
  intros Hm. destruct currentDate as [y m d]; cbn [getMonth getFullYear] in *.
  unfold ProgressView.daysInMonth, ProgressView.firstOfMonth.
  cbn [getMonth getFullYear].
  destruct (Z.eq_dec m 11) as [->|Hne].
  - reflexivity.
  - rewrite Z.div_small, Z.mod_small by lia.
    unfold yesterday; cbn [getDate getMonth getFullYear].
    rewrite Z.ltb_irrefl.
    replace (0 <? m + 1) with true by (symmetry; apply Z.ltb_lt; lia).
    cbn [getDate]. f_equal; lia.
Qed.

(** X7. For a year outside 0 to 99 and a month 0 to 11, the day cells of
    the calendar are exactly the days of that month: a number is among
    [days] if and only if it makes a valid date with the year and month
    shown. *)
Theorem calendar_days_are_the_month (currentDate : Date) (day : Z) :
  (getFullYear currentDate < 0 \/ 99 < getFullYear currentDate) ->
  0 <= getMonth currentDate <= 11 ->
  (In day (ProgressView.days currentDate) <->
   validDate (mkDate (getFullYear currentDate) (getMonth currentDate) day) = true).
Proof.
  intros Hy Hm. unfold ProgressView.days.
  rewrite (grid_daysInMonth _ Hm).
  assert (Hfy : ProgressView.makeFullYear (getFullYear currentDate) = getFullYear currentDate).
  { unfold ProgressView.makeFullYear.
    destruct ((0 <=? getFullYear currentDate) && (getFullYear currentDate <=? 99)) eqn:E;
      [|reflexivity].
    apply andb_true_iff in E as [E1 E2]. apply Z.leb_le in E1, E2. lia. }
  rewrite Hfy.
  pose proof (daysInMonth_range (getFullYear currentDate) (getMonth currentDate)) as Hr.
  unfold validDate; cbn [getMonth getDate getFullYear].
  rewrite in_map_iff, !andb_true_iff, !Z.leb_le. split.
  - intros (i & <- & Hi). apply in_seq in Hi. lia.
  - intros Hv. exists (Z.to_nat (day - 1)). split; [lia|]. apply in_seq. lia.
Qed.

(** X8. Month navigation composes to the identity: for a year above 100
    and a month 0 to 11, going back one month and forward again, or
    forward and back again, shows the first day of the month one started
    from. *)
Theorem month_navigation_round_trip (currentDate : Date) :
  100 < getFullYear currentDate -> 0 <= getMonth currentDate <= 11 ->
  ProgressView.nextMonth (ProgressView.prevMonth currentDate)
    = mkDate (getFullYear currentDate) (getMonth currentDate) 1 /\
  ProgressView.prevMonth (ProgressView.nextMonth currentDate)
    = mkDate (getFullYear currentDate) (getMonth currentDate) 1.
Proof.
  intros Hy Hm. destruct currentDate as [y m d]; cbn [getMonth getFullYear] in *.
  assert (Hfy : forall z, 99 < z -> ProgressView.makeFullYear z = z).
  { intros z Hz. unfold ProgressView.makeFullYear.
    replace (z <=? 99) with false by (symmetry; apply Z.leb_gt; lia).
    now rewrite andb_false_r. }
  unfold ProgressView.nextMonth, ProgressView.prevMonth, ProgressView.firstOfMonth.
  cbn [getMonth getFullYear].
  rewrite (Hfy y) by lia. split.
  - destruct (Z.eq_dec m 0) as [->|Hne].
    + change ((0 - 1) / 12) with (-1). change ((0 - 1) mod 12) with 11.
      rewrite Hfy by lia. change ((11 + 1) / 12) with 1. change ((11 + 1) mod 12) with 0.
      f_equal; lia.
    + rewrite (Z.div_small (m - 1)), (Z.mod_small (m - 1)) by lia.
      rewrite Hfy by lia.
      replace (m - 1 + 1) with m by lia.
      rewrite Z.div_small, Z.mod_small by lia. f_equal; lia.
  - destruct (Z.eq_dec m 11) as [->|Hne].
    + change ((11 + 1) / 12) with 1. change ((11 + 1) mod 12) with 0.
      rewrite Hfy by lia. change ((0 - 1) / 12) with (-1). change ((0 - 1) mod 12) with 11.
      f_equal; lia.
    + rewrite (Z.div_small (m + 1)), (Z.mod_small (m + 1)) by lia.
      rewrite Hfy by lia.
      replace (m + 1 - 1) with m by lia.
      rewrite Z.div_small, Z.mod_small by lia. f_equal; lia.
Qed.

(** In the years 0 to 100 the navigation does not come back: from
    January 100 one month back is December 99, and one month forward
    from there is January 2000. *)
Example month_navigation_early_years :
  ProgressView.nextMonth (ProgressView.prevMonth (mkDate 100 0 1)) = mkDate 2000 0 1.
Proof. reflexivity. Qed.

End CalendarFacts.

Lemma day_change_detected_witness :
  differsFrom (Some (getLocalDateString Sample.may9)) (getLocalDateString Sample.may10) = true.
Proof.
  apply (day_change_detected Sample.may9 Sample.may10 eq_refl eq_refl).
  discriminate.
Defined.

Lemma calendar_day_string_agrees_witness :
  ProgressView.dateStr (ProgressView.getDayDetails Sample.game Sample.may10 9) = "2024-05-09".
Proof.
  apply (calendar_day_string_agrees Sample.game Sample.may10 9); [simpl; lia | lia].
Defined.

Lemma calendar_days_are_the_month_witness :
  In 29 (ProgressView.days (mkDate 2024 1 10)) /\ ~ In 30 (ProgressView.days (mkDate 2024 1 10)).
Proof.
  split.
  - apply (calendar_days_are_the_month (mkDate 2024 1 10) 29);
      [right; simpl; lia | simpl; lia | reflexivity].
  - intros Hin.
    apply (calendar_days_are_the_month (mkDate 2024 1 10) 30) in Hin;
      [discriminate Hin | right; simpl; lia | simpl; lia].
Defined.

Lemma month_navigation_round_trip_witness :
  ProgressView.nextMonth (ProgressView.prevMonth (mkDate 2024 0 15)) = mkDate 2024 0 1.
Proof.
  apply (month_navigation_round_trip (mkDate 2024 0 15)); simpl; lia.
Defined.

(** ** Rollover, again *)

Section RolloverFacts.
Context {K : Constants}.

Lemma updater_sets_today (todayStr : string) (clock : Date) (prev : GameState) :
  todayStr <> "" ->
  lastCheckDate (checkDateAndReset_updater todayStr clock prev).1 = Some todayStr.
Proof.
  intros Hne. unfold checkDateAndReset_updater.
  destruct (lastCheckDate prev) as [s|] eqn:Hl; cbn [truthy differsFrom]; [|reflexivity].
  destruct (String.eqb_spec s ""); cbn [negb andb]; [reflexivity|].
  destruct (String.eqb_spec s todayStr); cbn [negb].
  - subst. exact Hl.
  - destruct (0 <? countMissed _ (habits prev)); reflexivity.
Qed.

Lemma updater_same_day (todayStr : string) (clock : Date) (prev : GameState) :
  todayStr <> "" -> lastCheckDate prev = Some todayStr ->
  checkDateAndReset_updater todayStr clock prev = (prev, []).
Proof.
  intros Hne Hl. unfold checkDateAndReset_updater. rewrite Hl. cbn [truthy differsFrom].
  rewrite String.eqb_refl. apply String.eqb_neq in Hne. rewrite Hne. reflexivity.
Qed.

(** X9. The periodic check penalises at most once a day: once a check
    has run, a further check the same calendar day changes nothing and
    signals nothing, whatever the state was before the first one. *)
Theorem second_check_same_day_is_idle (env1 env2 : Env) (app : App) :
  validDate (now env1) = true ->
  getLocalDateString (now env2) = getLocalDateString (now env1) ->
  tick env2 (tick env1 app).1 = ((tick env1 app).1, []).
Proof.
  intros Hv Hday.
  pose proof (getLocalDateString_nonempty _ Hv) as Hne.
  unfold tick at 1. unfold setGameState, checkDateAndReset.
  rewrite runUpdates_single, Hday.
  assert (Hl : lastCheckDate (gameState (tick env1 app).1)
               = Some (getLocalDateString (now env1))).
  { unfold tick, setGameState, checkDateAndReset. cbn [fst gameState].
    rewrite runUpdates_single. now apply updater_sets_today. }
  rewrite (updater_same_day _ _ _ Hne Hl). cbn [fst snd].
  now destruct (tick env1 app).1.
Qed.

(** X10. The penalty does not depend on how long ago the last check was:
    two states that differ only in their last check date, both set and
    both different from today, are updated to the same state with the
    same signals. *)
Theorem penalty_ignores_gap_length
    (todayStr d1 d2 : string) (clock : Date) (prev : GameState) :
  d1 <> "" -> d2 <> "" -> d1 <> todayStr -> d2 <> todayStr ->
  checkDateAndReset_updater todayStr clock (withLastCheckDate prev d1)
  = checkDateAndReset_updater todayStr clock (withLastCheckDate prev d2).
Proof.
  intros H1 H2 H3 H4. unfold checkDateAndReset_updater, withLastCheckDate.
  cbn [lastCheckDate truthy differsFrom habits stats themes activeThemeId proofLog volume].
  apply String.eqb_neq in H1, H2, H3, H4. rewrite H1, H2, H3, H4. reflexivity.
Qed.

End RolloverFacts.

Lemma second_check_same_day_is_idle_witness :
  let env := Sample.envAt Sample.may10 TxComplete in
  tick (K := Sample.constants) env (tick (K := Sample.constants) env Sample.app).1
  = ((tick (K := Sample.constants) env Sample.app).1, []).
Proof.
  apply (second_check_same_day_is_idle (K := Sample.constants)); reflexivity.
Defined.

Lemma penalty_ignores_gap_length_witness :
  checkDateAndReset_updater (K := Sample.constants) "2024-05-10" Sample.may10
    (withLastCheckDate Sample.game "2024-05-09")
  = checkDateAndReset_updater (K := Sample.constants) "2024-05-10" Sample.may10
    (withLastCheckDate Sample.game "2024-04-01").
Proof.
  apply (penalty_ignores_gap_length (K := Sample.constants)); discriminate.
Defined.

(** ** Invariants of runs *)

Section RunInvariants.
Context {K : Constants}.

Lemma run_invariant (ok : Intent -> bool) (P : App -> Prop) :
  (forall env i app, ok i = true -> P app -> P (step env i app)) ->
  forall tr app, allIntents ok tr = true -> P app -> P (run tr app).
Proof.
  intros Hstep tr. unfold run, allIntents.
  induction tr as [|[env i] tr IH]; intros app Hok HP; [exact HP|].
  cbn [forallb fold_left] in *. apply andb_true_iff in Hok as [Hi Hok].
  apply IH; [exact Hok|]. now apply Hstep.
Qed.

Lemma tick_gameState (env : Env) (app : App) :
  gameState (tick env app).1
  = (checkDateAndReset_updater (getLocalDateString (now env)) (nowInUpdater env)
       (gameState app)).1.
Proof.
  unfold tick, setGameState, checkDateAndReset. cbn [fst gameState].
  now rewrite runUpdates_single.
Qed.

(** The game state a capture leaves is the old one or the updater's. *)
Lemma capture_gameState (env : Env) (img : string) (app : App) :
  gameState (handleVerification env img app).1 = gameState app \/
  exists habitId,
    gameState (handleVerification env img app).1
    = (handleVerification_updater (getLocalDateString (now env)) habitId
         ("proof_" +:+ numToString (millis env)) (isoNow env) (gameState app)).1.
Proof.
  unfold handleVerification.
  destruct (negb (truthy (verificationTargetId app))); [now left|].
  destruct (tx env); cbn [saveProofImage fst gameState]; try (now left).
  right. eexists. reflexivity.
Qed.

Lemma step_statsNonNegative (env : Env) (i : Intent) (app : App) :
  0 <= POINTS_PER_COMPLETION -> isImport i = false ->
  statsNonNegative (gameState app) = true ->
  statsNonNegative (gameState (step env i app)) = true.
Proof.
  intros Hp Hi Hs. unfold statsNonNegative in *.
  apply andb_true_iff in Hs as [Hs1 Hs2]. apply Z.leb_le in Hs1, Hs2.
  destruct i; try discriminate Hi; cbn [step];
    try (cbn; apply andb_true_iff; split; apply Z.leb_le; assumption).
  - rewrite tick_gameState. unfold checkDateAndReset_updater.
    destruct (truthy _ && differsFrom _ _).
    + destruct (0 <? countMissed _ _); cbn;
        apply andb_true_iff; split; apply Z.leb_le; lia.
    + destruct (negb (truthy _)); cbn;
        apply andb_true_iff; split; apply Z.leb_le; lia.
  - destruct (capture_gameState env imageData app) as [-> | (habitId & ->)].
    + apply andb_true_iff; split; apply Z.leb_le; assumption.
    + unfold handleVerification_updater.
      destruct (find_first _ _) as [h|];
        [destruct (includes _ _)|]; cbn;
        apply andb_true_iff; split; apply Z.leb_le; lia.
  - reflexivity.
  - unfold setGameState, onUnlock; cbn [fst gameState].
    destruct (find_first _ _) as [t|];
      [|cbn; apply andb_true_iff; split; apply Z.leb_le; assumption].
    destruct (unlocked t || (points (stats (gameState app)) <? cost t)) eqn:E;
      [cbn; apply andb_true_iff; split; apply Z.leb_le; assumption|].
    apply orb_false_iff in E as [_ E]. apply Z.ltb_ge in E.
    cbn. apply andb_true_iff; split; apply Z.leb_le; lia.
Qed.

Lemma step_rankConsistent (env : Env) (i : Intent) (app : App) :
  RANKS <> [] -> isImport i = false ->
  rankConsistent (gameState app) = true ->
  rankConsistent (gameState (step env i app)) = true.
Proof.
  intros Hr Hi Hc. unfold rankConsistent in *.
  destruct i; try discriminate Hi; cbn [step]; try exact Hc.
  - rewrite tick_gameState. unfold checkDateAndReset_updater.
    destruct (truthy _ && differsFrom _ _).
    + destruct (0 <? countMissed _ _); cbn; [apply Z.eqb_refl | exact Hc].
    + destruct (negb (truthy _)); cbn; exact Hc.
  - destruct (capture_gameState env imageData app) as [-> | (habitId & ->)]; [exact Hc|].
    unfold handleVerification_updater.
    destruct (find_first _ _) as [h|]; [destruct (includes _ _)|]; cbn;
      try exact Hc. apply Z.eqb_refl.
  - unfold handleReset; cbn [fst gameState stats rankIndex totalXP].
    apply Z.eqb_eq. rewrite Z.div_0_l by apply XP_PER_RANK_nonzero.
    destruct RANKS; [contradiction|]. cbn [length]. lia.
  - unfold setGameState, onUnlock; cbn [fst gameState].
    destruct (find_first _ _) as [t|]; [|exact Hc].
    destruct (unlocked t || _); cbn; exact Hc.
Qed.

(** X11. Points and experience never become negative: along a run with no
    import, from any state where neither is negative, neither is negative
    afterwards, provided a completion does not award negative points. *)
Theorem stats_never_negative (tr : list (Env * Intent)) (app : App) :
  0 <= POINTS_PER_COMPLETION ->
  noImport tr = true ->
  statsNonNegative (gameState app) = true ->
  statsNonNegative (gameState (run tr app)) = true.
Proof.
  intros Hp Hn Hs.
  apply (run_invariant (fun i => negb (isImport i))
           (fun a => statsNonNegative (gameState a) = true)); auto.
  intros env i a Hi. apply negb_true_iff in Hi. now apply step_statsNonNegative.
Qed.

(** X12. The rank index follows the experience: along a run with no
    import from a state whose rank index is the one its non-negative
    experience gives, the rank index stays
    [min (totalXP / XP_PER_RANK) (length RANKS - 1)] and always names a
    rank of [RANKS], provided there is a rank at all, experience per rank
    is positive and completions award no negative points. *)
Theorem rank_follows_experience (tr : list (Env * Intent)) (app : App) :
  RANKS <> [] -> 0 < XP_PER_RANK -> 0 <= POINTS_PER_COMPLETION ->
  noImport tr = true ->
  statsNonNegative (gameState app) = true ->
  rankConsistent (gameState app) = true ->
  rankConsistent (gameState (run tr app)) = true /\
  is_Some (currentRankName (gameState (run tr app))).
Proof.
  intros Hr Hx Hp Hn Hs Hc.
  assert (Hinv : statsNonNegative (gameState (run tr app)) = true /\
                 rankConsistent (gameState (run tr app)) = true).
  { apply (run_invariant (fun i => negb (isImport i))
             (fun a => statsNonNegative (gameState a) = true /\
                       rankConsistent (gameState a) = true)); auto.
    intros env i a Hi [Hs' Hc']. apply negb_true_iff in Hi.
    split; [now apply step_statsNonNegative | now apply step_rankConsistent]. }
  destruct Hinv as [Hs' Hc']. split; [exact Hc'|].
  unfold currentRankName, rankAt. unfold rankConsistent in Hc'.
  unfold statsNonNegative in Hs'. apply andb_true_iff in Hs' as [_ Hxp].
  apply Z.leb_le in Hxp. apply Z.eqb_eq in Hc'.
  assert (0 <= totalXP (stats (gameState (run tr app))) / XP_PER_RANK)
    by (apply Z.div_pos; lia).
  assert (0 < Z.of_nat (length RANKS)) by (destruct RANKS; [contradiction | cbn; lia]).
  replace (rankIndex (stats (gameState (run tr app))) <? 0) with false
    by (symmetry; apply Z.ltb_ge; lia).
  apply lookup_lt_is_Some. lia.
Qed.

End RunInvariants.

Lemma stats_never_negative_witness :
  let tr := [ (Sample.envAt Sample.may10 TxComplete, Tick);
              (Sample.envAt Sample.may10 TxComplete, UnlockTheme "blue");
              (Sample.envAt Sample.may10 TxComplete, Tick) ] in
  statsNonNegative (gameState (run (K := Sample.constants) tr Sample.app)) = true.
Proof.
  apply (stats_never_negative (K := Sample.constants)); [discriminate | reflexivity..].
Defined.

Lemma rank_follows_experience_witness :
  let tr := [ (Sample.envAt Sample.may10 TxComplete, ToggleHabit "h1");
              (Sample.envAt Sample.may10 TxComplete, Capture "img-a") ] in
  is_Some (currentRankName (K := Sample.constants)
             (gameState (run (K := Sample.constants) tr Sample.app))).
Proof.
  apply (rank_follows_experience (K := Sample.constants));
    [discriminate | reflexivity | discriminate | reflexivity..].
Defined.

(** ** The proof log, the habits and the vault along a run *)

Section LogInvariants.
Context {K : Constants}.

Lemma referenced_by_more (hs hs' : list Habit) (log : list Proof) :
  (forall id, existsb (fun h => String.eqb (habit_id h) id) hs = true ->
              existsb (fun h => String.eqb (habit_id h) id) hs' = true) ->
  forallb (fun p => existsb (fun h => String.eqb (habit_id h) (habitId p)) hs) log = true ->
  forallb (fun p => existsb (fun h => String.eqb (habit_id h) (habitId p)) hs') log = true.
Proof.
  intros Hmore. rewrite !forallb_forall. intros Hall p Hp. apply Hmore, Hall, Hp.
Qed.

Lemma existsb_markCompleted (todayStr habitId id : string) (hs : list Habit) :
  existsb (fun h => String.eqb (habit_id h) id)
    (map (fun h => if String.eqb (habit_id h) habitId
                   then markCompleted todayStr h else h) hs)
  = existsb (fun h => String.eqb (habit_id h) id) hs.
Proof.
  induction hs as [|h hs IH]; [reflexivity|]. cbn [map existsb]. rewrite IH.
  now destruct (String.eqb (habit_id h) habitId).
Qed.

Lemma updater_keeps_log_referenced
    (todayStr hid proofId iso : string) (prev : GameState) :
  proofsReferenced prev = true ->
  proofsReferenced (handleVerification_updater todayStr hid proofId iso prev).1 = true.
Proof.
  intros Hp. unfold handleVerification_updater.
  destruct (find_first _ (habits prev)) as [habit|] eqn:Hf; [|exact Hp].
  destruct (includes _ _); [exact Hp|].
  unfold proofsReferenced in *. cbn [fst habits proofLog forallb].
  apply andb_true_iff. split.
  - cbn [habitId]. rewrite existsb_markCompleted. apply existsb_exists.
    unfold find_first in Hf. apply find_some in Hf as [Hin Hid]. eauto.
  - apply (referenced_by_more (habits prev)); [|exact Hp].
    intros id. now rewrite existsb_markCompleted.
Qed.

Lemma step_proofsReferenced (env : Env) (i : Intent) (app : App) :
  isImport i = false ->
  proofsReferenced (gameState app) = true ->
  proofsReferenced (gameState (step env i app)) = true.
Proof.
  intros Hi Hp.
  destruct i; try discriminate Hi; cbn [step]; try exact Hp.
  - rewrite tick_gameState. unfold checkDateAndReset_updater.
    destruct (truthy _ && differsFrom _ _).
    + destruct (0 <? countMissed _ _); exact Hp.
    + destruct (negb (truthy _)); exact Hp.
  - destruct (capture_gameState env imageData app) as [-> | (habitId & ->)]; [exact Hp|].
    now apply updater_keeps_log_referenced.
  - reflexivity.
  - unfold setGameState, onAddHabit, proofsReferenced in *. cbn [fst gameState habits proofLog].
    apply (referenced_by_more (habits (gameState app))); [|exact Hp].
    intros id' Hex. cbn [existsb]. rewrite Hex. apply orb_true_r.
  - unfold setGameState. cbn [fst gameState]. now apply delete_habit_keeps_log_referenced.
  - unfold setGameState, onUnlock; cbn [fst gameState].
    destruct (find_first _ _) as [t|]; [|exact Hp].
    destruct (unlocked t || _); exact Hp.
Qed.

(** X13. No proof record is left without its habit: along a run with no
    import, from a state where every record of the proof log names a
    habit of the list (the initial state is one), every record still
    does. *)
Theorem proof_log_stays_referenced (tr : list (Env * Intent)) (app : App) :
  noImport tr = true ->
  proofsReferenced (gameState app) = true ->
  proofsReferenced (gameState (run tr app)) = true /\
  proofsReferenced (gameState (run tr initialApp)) = true.
Proof.
  intros Hn Hp.
  assert (Hrun : forall a, proofsReferenced (gameState a) = true ->
                           proofsReferenced (gameState (run tr a)) = true).
  { intros a Ha.
    apply (run_invariant (fun i => negb (isImport i))
             (fun a => proofsReferenced (gameState a) = true)); auto.
    intros env i b Hi. apply negb_true_iff in Hi. now apply step_proofsReferenced. }
  split; [now apply Hrun | now apply Hrun].
Qed.

Lemma stored_after_put (p : ProofEntry) (st : gmap string string) (log : list Proof) :
  forallb (fun q => bool_decide (is_Some (st !! proof_id q))) log = true ->
  forallb (fun q => bool_decide (is_Some (put p st !! proof_id q))) log = true.
Proof.
  rewrite !forallb_forall. intros Hall q Hq. specialize (Hall q Hq).
  apply bool_decide_eq_true in Hall. apply bool_decide_eq_true.
  unfold put. destruct (decide (entry_id p = proof_id q)) as [->|Hne].
  - rewrite lookup_insert_eq. eauto.
  - now rewrite lookup_insert_ne.
Qed.

Lemma step_payloadsStored (env : Env) (i : Intent) (app : App) :
  isImport i = false ->
  payloadsStored app = true -> payloadsStored (step env i app) = true.
Proof.
  intros Hi Hp.
  destruct i; try discriminate Hi; cbn [step]; try exact Hp.
  - unfold payloadsStored in *. rewrite tick_gameState.
    change (vault (tick env app).1) with (vault app).
    unfold checkDateAndReset_updater.
    destruct (truthy _ && differsFrom _ _).
    + destruct (0 <? countMissed _ _); exact Hp.
    + destruct (negb (truthy _)); exact Hp.
  - unfold payloadsStored in *. unfold handleVerification.
    destruct (negb (truthy (verificationTargetId app))); [exact Hp|].
    destruct (tx env); cbn [saveProofImage fst snd gameState vault]; try exact Hp.
    unfold handleVerification_updater.
    destruct (find_first _ _) as [h|]; [destruct (includes _ _)|];
      cbn [fst proofLog forallb]; try (now apply stored_after_put).
    apply andb_true_iff. split; [|now apply stored_after_put].
    apply bool_decide_eq_true. unfold put; cbn [entry_id data proof_id].
    rewrite lookup_insert_eq. eauto.
  - reflexivity.
  - unfold payloadsStored, setGameState, onDeleteHabit in *.
    cbn [fst gameState vault proofLog].
    rewrite forallb_forall in *. intros p Hin. apply filter_In in Hin as [Hin _]. auto.
  - unfold payloadsStored, setGameState, onUnlock in *. cbn [fst gameState vault].
    destruct (find_first _ _) as [t|]; [|exact Hp].
    destruct (unlocked t || _); exact Hp.
Qed.

(** X14. Every logged proof can be shown: along a run with no import,
    from a state where every record of the proof log has a payload in
    the vault under its id (the initial state is one), every record
    still has one. *)
Theorem logged_proofs_have_payloads (tr : list (Env * Intent)) (app : App) :
  noImport tr = true ->
  payloadsStored app = true ->
  payloadsStored (run tr app) = true /\ payloadsStored (run tr initialApp) = true.
Proof.
  intros Hn Hp.
  assert (Hrun : forall a, payloadsStored a = true -> payloadsStored (run tr a) = true).
  { intros a Ha.
    apply (run_invariant (fun i => negb (isImport i))
             (fun a => payloadsStored a = true)); auto.
    intros env i b Hi. apply negb_true_iff in Hi. now apply step_payloadsStored. }
  split; [now apply Hrun | now apply Hrun].
Qed.

End LogInvariants.

Lemma proof_log_stays_referenced_witness :
  let tr := [ (Sample.envAt Sample.may10 TxComplete, ToggleHabit "h1");
              (Sample.envAt Sample.may10 TxComplete, Capture "img-a");
              (Sample.envAt Sample.may10 TxComplete, DeleteHabit "h3") ] in
  proofsReferenced (gameState (run (K := Sample.constants) tr Sample.app)) = true.
Proof.
  apply (proof_log_stays_referenced (K := Sample.constants)); reflexivity.
Defined.

Lemma logged_proofs_have_payloads_witness :
  let tr := [ (Sample.envAt Sample.may10 TxComplete, ToggleHabit "h1");
              (Sample.envAt Sample.may10 TxComplete, Capture "img-a");
              (Sample.envAt Sample.may10 TxComplete, DeleteHabit "h2") ] in
  payloadsStored (run (K := Sample.constants) tr Sample.app) = true.
Proof.
  apply (logged_proofs_have_payloads (K := Sample.constants)); [reflexivity|].
  vm_compute. reflexivity.
Defined.

(** ** Habits *)

Section HabitFacts.
Context {K : Constants}.

Lemma habit_unique_by_id (hs : list Habit) (h h' : Habit) :
  NoDup (map habit_id hs) -> In h hs -> In h' hs -> habit_id h = habit_id h' -> h = h'.
Proof.
  induction hs as [|a hs IH]; [intros _ []|].
  cbn [map]. rewrite NoDup_cons. intros [Hna Hnd] [->|Hin] [->|Hin'] Hid; auto.
  - exfalso. apply Hna. rewrite Hid. apply list_elem_of_In, in_map, Hin'.
  - exfalso. apply Hna. rewrite <- Hid. apply list_elem_of_In, in_map, Hin.
Qed.

Lemma includes_false_not_in (l : list string) (x : string) :
  includes l x = false -> x ∉ l.
Proof.
  unfold includes. intros He Hin. apply list_elem_of_In in Hin.
  assert (existsb (String.eqb x) l = true)
    by (apply existsb_exists; exists x; split; [exact Hin | apply String.eqb_refl]).
  congruence.
Qed.

Lemma map_id_markCompleted (todayStr hid : string) (hs : list Habit) :
  map habit_id (map (fun h => if String.eqb (habit_id h) hid
                              then markCompleted todayStr h else h) hs)
  = map habit_id hs.
Proof.
  rewrite map_map. apply map_ext. intros h.
  now destruct (String.eqb (habit_id h) hid).
Qed.

Lemma updater_keeps_habits_well_formed
    (todayStr hid proofId iso : string) (prev : GameState) :
  habitsWellFormed prev ->
  habitsWellFormed (handleVerification_updater todayStr hid proofId iso prev).1.
Proof.
  intros [Hids Hdays]. unfold handleVerification_updater.
  destruct (find_first _ (habits prev)) as [habit|] eqn:Hf; [|now split].
  destruct (includes (completedDays habit) todayStr) eqn:Hi; [now split|].
  unfold habitsWellFormed. cbn [fst habits]. split.
  - now rewrite map_id_markCompleted.
  - apply List.Forall_map. rewrite List.Forall_forall in *. intros h Hh.
    destruct (String.eqb (habit_id h) hid) eqn:E; [|now apply Hdays].
    unfold find_first in Hf. apply find_some in Hf as [Hin Hid].
    apply String.eqb_eq in E, Hid.
    assert (h = habit) as ->
      by (apply (habit_unique_by_id (habits prev)); [exact Hids | exact Hh | exact Hin | congruence]).
    cbn [markCompleted completedDays]. apply NoDup_app. split; [now apply Hdays|].
    split; [|apply NoDup_singleton].
    intros x Hx Hx'. apply list_elem_of_singleton in Hx'. subst.
    now apply (includes_false_not_in _ _ Hi).
Qed.

Lemma filter_keeps_distinct_ids (f : Habit -> bool) (hs : list Habit) :
  NoDup (map habit_id hs) -> NoDup (map habit_id (List.filter f hs)).
Proof.
  induction hs as [|a hs IH]; [auto|]. cbn [map List.filter].
  rewrite NoDup_cons. intros [Hna Hnd]. destruct (f a); [|auto].
  cbn [map]. apply NoDup_cons. split; [|auto].
  intros Hin. apply Hna. apply list_elem_of_In in Hin. apply list_elem_of_In.
  apply in_map_iff in Hin as (h & Hid & Hh). apply filter_In in Hh as [Hh _].
  apply in_map_iff. eauto.
Qed.

(** X15. Habits stay well formed: an intent other than an import keeps
    the habit ids distinct and every list of completed days free of
    repetitions, provided a habit that is added gets an id no habit has. *)
Theorem habits_stay_well_formed (env : Env) (i : Intent) (app : App) :
  isImport i = false ->
  (forall t, i = AddHabit t ->
     ~ In (randomId env) (map habit_id (habits (gameState app)))) ->
  habitsWellFormed (gameState app) ->
  habitsWellFormed (gameState (step env i app)).
Proof.
  intros Hi Hfresh Hw.
  destruct i; try discriminate Hi; cbn [step]; try exact Hw.
  - rewrite tick_gameState. unfold checkDateAndReset_updater.
    destruct (truthy _ && differsFrom _ _).
    + destruct (0 <? countMissed _ _); exact Hw.
    + destruct (negb (truthy _)); exact Hw.
  - destruct (capture_gameState env imageData app) as [-> | (hid & ->)]; [exact Hw|].
    now apply updater_keeps_habits_well_formed.
  - split; [apply NoDup_nil_2 | apply Forall_nil_2].
  - destruct Hw as [Hids Hdays]. unfold setGameState, onAddHabit, habitsWellFormed.
    cbn [fst gameState habits map habit_id]. split.
    + apply NoDup_cons. split; [|exact Hids].
      intros Hin. apply (Hfresh title0 eq_refl). now apply list_elem_of_In.
    + apply Forall_cons. split; [apply NoDup_nil_2 | exact Hdays].
  - destruct Hw as [Hids Hdays]. unfold setGameState, onDeleteHabit, habitsWellFormed.
    cbn [fst gameState habits]. split.
    + now apply filter_keeps_distinct_ids.
    + rewrite List.Forall_forall in *. intros h Hh. apply filter_In in Hh as [Hh _]. auto.
  - unfold setGameState, onUnlock; cbn [fst gameState].
    destruct (find_first _ _) as [t|]; [|exact Hw].
    destruct (unlocked t || _); exact Hw.
Qed.

(** X16. A completion shows in the calendar: when a capture for an open
    habit is saved, the habit is among the completed habits the calendar
    lists for the day of the capture, and it was not before. *)
Theorem completion_shows_in_calendar
    (env : Env) (img hid : string) (app : App) (habit : Habit) :
  let today := getLocalDateString (now env) in
  let app' := (handleVerification env img app).1 in
  validDate (now env) = true ->
  verificationTargetId app = Some hid -> hid <> "" -> tx env = TxComplete ->
  find_first (fun h => String.eqb (habit_id h) hid) (habits (gameState app)) = Some habit ->
  includes (completedDays habit) today = false ->
  In (markCompleted today habit)
     (ProgressView.completedHabits
        (ProgressView.getDayDetails (gameState app') (now env) (getDate (now env)))) /\
  ~ In habit
     (ProgressView.completedHabits
        (ProgressView.getDayDetails (gameState app) (now env) (getDate (now env)))).
Proof.
  intros today app' Hv Ht Hne Htx Hf Hi. subst app'.
  pose proof (validDate_bounds _ Hv) as [Hm Hd].
  pose proof (daysInMonth_range (getFullYear (now env)) (getMonth (now env))) as Hr.
  assert (Hstr : forall g,
            ProgressView.dateStr (ProgressView.getDayDetails g (now env) (getDate (now env)))
            = today).
  { intros g. rewrite dateStr_getLocalDateString by lia. subst today.
    now destruct (now env). }
  assert (Hc : forall g,
            ProgressView.completedHabits
              (ProgressView.getDayDetails g (now env) (getDate (now env)))
            = List.filter (fun h => includes (completedDays h) today) (habits g)).
  { intros g. specialize (Hstr g). unfold ProgressView.getDayDetails in *.
    cbn [ProgressView.completedHabits ProgressView.dateStr] in *. now rewrite Hstr. }
  rewrite !Hc. split.
  - rewrite (handleVerification_commits env img hid app Ht Hne Htx).
    fold today. unfold handleVerification_updater. rewrite Hf, Hi. cbn [fst habits].
    apply filter_In. split.
    + apply in_map_iff. exists habit. pose proof Hf as Hf'.
      apply find_first_holds in Hf'. cbv beta in Hf'. rewrite Hf'. split; [reflexivity|].
      unfold find_first in Hf. now apply find_some in Hf.
    + cbn [markCompleted completedDays]. apply includes_snoc.
  - intros Hin. apply filter_In in Hin as [_ Hin]. congruence.
Qed.

(** X17. Adding a habit and deleting it again gives back the state one
    started from, provided the id the new habit got was not in use and
    every proof record names an existing habit. *)
Theorem add_then_delete_habit (env : Env) (t : string) (prev : GameState) :
  ~ In (randomId env) (map habit_id (habits prev)) ->
  proofsReferenced prev = true ->
  (onDeleteHabit (randomId env) (onAddHabit env t prev).1).1 = prev.
Proof.
  intros Hfresh Hp.
  assert (Hhs : List.filter (fun h => negb (String.eqb (habit_id h) (randomId env)))
                  (habits prev) = habits prev).
  { apply forallb_filter_id. apply forallb_forall. intros h Hh.
    apply negb_true_iff, String.eqb_neq. intros E. apply Hfresh.
    rewrite <- E. now apply in_map. }
  assert (Hlog : List.filter (fun p => negb (String.eqb (habitId p) (randomId env)))
                   (proofLog prev) = proofLog prev).
  { apply forallb_filter_id. apply forallb_forall. intros p Hin.
    unfold proofsReferenced in Hp. rewrite forallb_forall in Hp.
    specialize (Hp p Hin). apply existsb_exists in Hp as (h & Hh & Hid).
    apply String.eqb_eq in Hid.
    apply negb_true_iff, String.eqb_neq. intros E. apply Hfresh.
    rewrite <- E, <- Hid. now apply in_map. }
  unfold onDeleteHabit, onAddHabit.
  cbn [fst habits stats themes activeThemeId proofLog lastCheckDate volume
       List.filter habit_id].
  rewrite String.eqb_refl. cbn [negb]. rewrite Hhs, Hlog. now destruct prev.
Qed.

End HabitFacts.

Lemma habits_stay_well_formed_witness :
  habitsWellFormed
    (gameState (step (K := Sample.constants) (Sample.envAt Sample.may10 TxComplete)
                  (AddHabit "walk") Sample.app)).
Proof.
  apply (habits_stay_well_formed (K := Sample.constants)).
  - reflexivity.
  - intros t _ Hin. simpl in Hin.
    destruct Hin as [E|[E|[E|[]]]]; discriminate E.
  - split.
    + simpl. repeat (apply NoDup_cons; split;
        [intros Hin; repeat (apply elem_of_cons in Hin as [Hin|Hin]; [discriminate Hin|]);
         now apply elem_of_nil in Hin|]).
      apply NoDup_nil_2.
    + simpl. repeat (apply Forall_cons; split;
        [repeat (apply NoDup_cons; split;
           [intros Hin; repeat (apply elem_of_cons in Hin as [Hin|Hin]; [discriminate Hin|]);
            now apply elem_of_nil in Hin|]); apply NoDup_nil_2|]).
      apply Forall_nil_2.
Defined.

Lemma completion_shows_in_calendar_witness :
  let env := Sample.envAt Sample.may10 TxComplete in
  let app' := (handleVerification (K := Sample.constants) env "img-a"
                 (onToggleHabit "h1" Sample.app)).1 in
  In (markCompleted "2024-05-10" Sample.run1)
     (ProgressView.completedHabits
        (ProgressView.getDayDetails (gameState app') Sample.may10 10)).
Proof.
  apply (completion_shows_in_calendar (K := Sample.constants)
           (Sample.envAt Sample.may10 TxComplete) "img-a" "h1"
           (onToggleHabit "h1" Sample.app) Sample.run1);
    try reflexivity. discriminate.
Defined.

Lemma add_then_delete_habit_witness :
  let env := Sample.envAt Sample.may10 TxComplete in
  (onDeleteHabit "k3j9x0q1z" (onAddHabit env "walk" Sample.game).1).1 = Sample.game.
Proof.
  apply (add_then_delete_habit (Sample.envAt Sample.may10 TxComplete) "walk" Sample.game).
  - simpl. intros [E|[E|[E|[]]]]; discriminate E.
  - reflexivity.
Defined.

(** ** Themes *)

Section ThemeFacts.
Context {K : Constants}.

Lemma step_keeps_unlocked (env : Env) (i : Intent) (app : App) (idx : nat) (t : ColorTheme) :
  isImport i = false -> isReset i = false ->
  themes (gameState app) !! idx = Some t -> unlocked t = true ->
  exists t', themes (gameState (step env i app)) !! idx = Some t' /\
             unlocked t' = true /\ theme_id t' = theme_id t.
Proof.
  intros Hi Hr Hl Hu.
  destruct i; try discriminate Hi; try discriminate Hr; cbn [step];
    try (exists t; repeat split; assumption).
  - rewrite tick_gameState. unfold checkDateAndReset_updater.
    destruct (truthy _ && differsFrom _ _).
    + destruct (0 <? countMissed _ _); exists t; repeat split; assumption.
    + destruct (negb (truthy _)); exists t; repeat split; assumption.
  - destruct (capture_gameState env imageData app) as [-> | (hid & ->)];
      [exists t; repeat split; assumption|].
    unfold handleVerification_updater.
    destruct (find_first _ _) as [h|]; [destruct (includes _ _)|];
      exists t; repeat split; assumption.
  - unfold setGameState, onUnlock; cbn [fst gameState].
    destruct (find_first _ _) as [th|]; [|exists t; repeat split; assumption].
    destruct (unlocked th || _); [exists t; repeat split; assumption|].
    cbn [fst themes]. rewrite list_lookup_fmap, Hl. cbn.
    destruct (String.eqb (theme_id t) themeId); eexists; repeat split; assumption.
Qed.

(** X18. Unlocking is permanent short of a reset or an import: along a
    run with neither, a theme that is unlocked stays in its place in the
    theme list, keeps its id and stays unlocked. *)
Theorem unlocked_theme_stays_unlocked
    (tr : list (Env * Intent)) (app : App) (idx : nat) (t : ColorTheme) :
  allIntents (fun i => negb (isImport i) && negb (isReset i)) tr = true ->
  themes (gameState app) !! idx = Some t -> unlocked t = true ->
  exists t', themes (gameState (run tr app)) !! idx = Some t' /\
             unlocked t' = true /\ theme_id t' = theme_id t.
Proof.
  intros Hok Hl Hu.
  apply (run_invariant (fun i => negb (isImport i) && negb (isReset i))
           (fun a => exists t', themes (gameState a) !! idx = Some t' /\
                                unlocked t' = true /\ theme_id t' = theme_id t));
    [|exact Hok|eauto].
  intros env i a Hi (t' & Hl' & Hu' & Hid').
  apply andb_true_iff in Hi as [Hi Hr]. apply negb_true_iff in Hi, Hr.
  destruct (step_keeps_unlocked env i a idx t' Hi Hr Hl' Hu') as (t'' & ? & ? & ?).
  exists t''. repeat split; congruence.
Qed.

Lemma activeTheme_after_unlock (themeId : string) (prev : GameState) :
  (exists a, activeTheme prev = Some a /\ unlocked a = true) ->
  exists a, activeTheme (onUnlock themeId prev).1 = Some a /\ unlocked a = true.
Proof.
  intros (a & Ha & Hu). unfold onUnlock.
  destruct (find_first _ (themes prev)) as [th|]; [|eauto].
  destruct (unlocked th || _); [eauto|].
  unfold activeTheme in *. cbn [fst themes activeThemeId].
  rewrite find_first_map.
  - destruct (find_first _ (themes prev)) as [b|]; cbn [option_map]; [|eauto].
    injection Ha as ->.
    destruct (String.eqb (theme_id a) themeId); eauto.
  - intros b. destruct (String.eqb (theme_id b) themeId) eqn:E; cbn; reflexivity.
Qed.

(** X19. The theme buttons of the settings never make a locked theme the
    active one.  For a button showing the theme its id resolves to: on an
    unlocked theme the click makes that theme the active theme; on a
    locked theme the points cannot pay the click does nothing; on a
    locked theme they can pay, the click unlocks it and leaves the active
    theme id alone.  In every case, if the active theme was unlocked
    before the click, it is unlocked after. *)
Theorem theme_button_click (theme : ColorTheme) (app : App) :
  let r := (themeRowClick theme app).1 in
  find_first (fun t => String.eqb (theme_id t) (theme_id theme)) (themes (gameState app))
    = Some theme ->
  (unlocked theme = true -> activeTheme (gameState r) = Some theme) /\
  (unlocked theme = false -> points (stats (gameState app)) < cost theme -> r = app) /\
  (unlocked theme = false -> cost theme <= points (stats (gameState app)) ->
     activeThemeId (gameState r) = activeThemeId (gameState app) /\
     find_first (fun t => String.eqb (theme_id t) (theme_id theme)) (themes (gameState r))
       = Some (markUnlocked theme)) /\
  ((exists a, activeTheme (gameState app) = Some a /\ unlocked a = true) ->
   exists a, activeTheme (gameState r) = Some a /\ unlocked a = true).
Proof.
  intros r Hf. subst r. unfold themeRowClick.
  split; [|split; [|split]].
  - intros Hu. rewrite Hu. cbn [negb andb].
    unfold setGameState, onSelect, activeTheme. cbn [fst gameState themes activeThemeId].
    now rewrite Hf.
  - intros Hu Hlt. rewrite Hu.
    replace (cost theme <=? points (stats (gameState app))) with false
      by (symmetry; apply Z.leb_gt; lia). reflexivity.
  - intros Hu Hle. rewrite Hu.
    replace (cost theme <=? points (stats (gameState app))) with true
      by (symmetry; apply Z.leb_le; lia).
    cbn [negb andb]. unfold setGameState, onUnlock. cbn [fst gameState].
    rewrite Hf, Hu.
    replace (points (stats (gameState app)) <? cost theme) with false
      by (symmetry; apply Z.ltb_ge; lia).
    cbn [orb fst activeThemeId themes]. split; [reflexivity|].
    rewrite find_first_map.
    + rewrite Hf. cbn [option_map]. apply find_first_holds in Hf. cbv beta in Hf.
      now rewrite Hf.
    + intros b. destruct (String.eqb (theme_id b) (theme_id theme)) eqn:E; cbn;
        now rewrite ?E.
  - intros Hact.
    destruct (negb (unlocked theme) &&
              negb (cost theme <=? points (stats (gameState app)))); [exact Hact|].
    destruct (unlocked theme) eqn:Hu.
    + exists theme. split; [|exact Hu].
      unfold setGameState, onSelect, activeTheme. cbn [fst gameState themes activeThemeId].
      now rewrite Hf.
    + unfold setGameState. cbn [fst gameState]. now apply activeTheme_after_unlock.
Qed.

End ThemeFacts.

(** A reset locks the themes again: the theme list goes back to
    [INITIAL_THEMES]. *)
Example reset_locks_themes_again :
  let env := Sample.envAt Sample.may10 TxComplete in
  let unlockedApp := step (K := Sample.constants) env (UnlockTheme "blue") Sample.app in
  let resetApp := step (K := Sample.constants) env ResetAll unlockedApp in
  (unlocked <$> themes (gameState unlockedApp) !! 1%nat) = Some true /\
  (unlocked <$> themes (gameState resetApp) !! 1%nat) = Some false.
Proof. split; reflexivity. Qed.

Lemma unlocked_theme_stays_unlocked_witness :
  let tr := [ (Sample.envAt Sample.may10 TxComplete, UnlockTheme "blue");
              (Sample.envAt Sample.may10 TxComplete, Tick);
              (Sample.envAt Sample.may10 TxComplete, SelectTheme "blue") ] in
  exists t', themes (gameState (run (K := Sample.constants) tr Sample.app)) !! 0%nat = Some t' /\
             unlocked t' = true /\ theme_id t' = "red".
Proof.
  apply (unlocked_theme_stays_unlocked (K := Sample.constants) _ Sample.app 0
           {| theme_id := "red"; hex := "#FF0000"; cost := 0; unlocked := true |});
    reflexivity.
Defined.

Lemma theme_button_click_witness :
  let blue := {| theme_id := "blue"; hex := "#0000FF"; cost := 500; unlocked := false |} in
  let r := (themeRowClick blue Sample.app).1 in
  activeThemeId (gameState r) = "red" /\
  find_first (fun t => String.eqb (theme_id t) "blue") (themes (gameState r))
    = Some (markUnlocked blue).
Proof.
  destruct (theme_button_click (K := Sample.constants)
              {| theme_id := "blue"; hex := "#0000FF"; cost := 500; unlocked := false |}
              Sample.app eq_refl) as (_ & _ & Hok & _).
  apply Hok; [reflexivity | simpl; lia].
Defined.

(** ** Capture, import and the volume bar *)

Section HandlerFacts.
Context {K : Constants}.

(** The handler of the render in which the state's target was captured
    is [handleVerification]. *)
Lemma handleVerificationFrom_current (env : Env) (img : string) (app : App) :
  handleVerificationFrom (verificationTargetId app) env img app
  = handleVerification env img app.
Proof. reflexivity. Qed.

(** X20. A capture repeated through the handler the dialog still holds.
    The handler keeps the target it was created with, so after a saved
    capture for habit [hid] a second capture through the same handler,
    on the same day, is not stopped by the cleared target: it leaves the
    game state as the first capture left it, and it stores the second
    image in the vault under its own id. *)
Theorem repeated_capture_through_held_handler
    (env1 env2 : Env) (img1 img2 hid : string) (app : App) :
  let app1 := (handleVerificationFrom (Some hid) env1 img1 app).1 in
  let r := handleVerificationFrom (Some hid) env2 img2 app1 in
  hid <> "" -> tx env1 = TxComplete -> tx env2 = TxComplete ->
  getLocalDateString (now env2) = getLocalDateString (now env1) ->
  verificationTargetId app1 = None /\
  gameState r.1 = gameState app1 /\
  vault r.1 = <["proof_" +:+ numToString (millis env2) := img2]> (vault app1).
Proof.
  intros app1 r Hne Htx1 Htx2 Hday. subst r app1.
  unfold handleVerificationFrom. cbn [truthy default].
  apply String.eqb_neq in Hne. rewrite Hne. cbn [negb].
  rewrite Htx1, Htx2, Hday. cbn [saveProofImage fst snd gameState vault verificationTargetId].
  split; [reflexivity|]. split; [|reflexivity].
  now rewrite handleVerification_updater_twice.
Qed.

(** X21. What a saved capture leaves behind: for an open habit, the new
    record is first in the proof log, its id is [proof_] followed by the
    clock in milliseconds, and reading that id from the vault gives the
    image captured (or [null] for an empty image). *)
Theorem captured_proof_is_readable
    (env : Env) (img hid : string) (app : App) (habit : Habit) :
  let app' := (handleVerification env img app).1 in
  let proofId := "proof_" +:+ numToString (millis env) in
  verificationTargetId app = Some hid -> hid <> "" -> tx env = TxComplete ->
  find_first (fun h => String.eqb (habit_id h) hid) (habits (gameState app)) = Some habit ->
  includes (completedDays habit) (getLocalDateString (now env)) = false ->
  proofLog (gameState app')
    = {| proof_id := proofId; habitId := hid; date := isoNow env |}
        :: proofLog (gameState app) /\
  getProofImage TxComplete proofId (vault app')
    = Resolved (if String.eqb img "" then None else Some img) /\
  verificationTargetId app' = None.
Proof.
  intros app' proofId Ht Hne Htx Hf Hi. subst app'.
  split; [|split].
  - rewrite (handleVerification_commits env img hid app Ht Hne Htx).
    fold proofId. unfold handleVerification_updater. now rewrite Hf, Hi.
  - assert (Hv : vault (handleVerification env img app).1 = <[proofId := img]> (vault app)).
    { unfold handleVerification. rewrite Ht, Htx. simpl.
      destruct (String.eqb_spec hid ""); [contradiction|]. reflexivity. }
    rewrite Hv. unfold getProofImage. now rewrite lookup_insert_eq.
  - unfold handleVerification. rewrite Ht, Htx. simpl.
    destruct (String.eqb_spec hid ""); [contradiction|]. reflexivity.
Qed.

(** X22. An import that fails changes nothing: when the document lacks
    the game state or the proofs, or when the vault transaction does not
    complete, the application state is what it was and the failure is
    announced. *)
Theorem failed_import_changes_nothing (env : Env) (doc : BackupDocument) (app : App) :
  doc_gameState doc = None \/ doc_proofs doc = None \/ tx env <> TxComplete ->
  handleImport env doc app
  = (app, [Alert "Import sequence failed. Data corrupted or incompatible version."]).
Proof.
  unfold handleImport. intros [-> | [-> | Htx]]; [reflexivity | | ].
  - now destruct (doc_gameState doc).
  - destruct (doc_gameState doc); [|reflexivity].
    destruct (doc_proofs doc); [|reflexivity].
    destruct (tx env); [contradiction| | |]; cbn; now destruct app.
Qed.

(** X23. An import that goes through replaces both stores: the game state
    is the one of the document, the menu is shown, and the vault reads,
    for every id, the payload of the last entry of the document with that
    id, whatever it held before. *)
Theorem import_replaces_both_stores
    (env : Env) (doc : BackupDocument) (app : App)
    (newState : GameState) (proofs : list ProofEntry) :
  let r := handleImport env doc app in
  doc_gameState doc = Some newState -> doc_proofs doc = Some proofs ->
  tx env = TxComplete ->
  gameState r.1 = newState /\ screen r.1 = MENU /\ r.2 = [] /\
  forall id,
    vault r.1 !! id = lastPayload id proofs /\
    getProofImage TxComplete id (vault r.1)
      = Resolved match lastPayload id proofs with
                 | Some d => if String.eqb d "" then None else Some d
                 | None => None
                 end.
Proof.
  intros r Hg Hp Htx. subst r. unfold handleImport. rewrite Hg, Hp, Htx.
  cbn [clearAndRestoreProofs onImport fst snd gameState screen vault].
  repeat split.
  - pose proof (restore_lookup_any proofs (vault app) id) as Hl. exact Hl.
  - unfold getProofImage.
    now rewrite (restore_lookup_any proofs (vault app) id).
Qed.

End HandlerFacts.

Section VolumeFacts.

(** X24. The volume bar shows the segment that was clicked: after a click
    on one of the 24 segments the stored volume lies between 0 and 1,
    [currentStep] computed from it is that segment again, and the lit
    segments are exactly those up to it. *)
Theorem volume_bar_shows_clicked_segment (segment : Z) (prev : GameState) :
  let v := volume (setGlobalVolume (VolumeBar.segmentVolume segment) prev).1 in
  In segment VolumeBar.volumeSegments ->
  VolumeBar.currentStep v = Some segment /\
  (forall s, In s VolumeBar.volumeSegments ->
     VolumeBar.isActive s v = (s <=? segment)) /\
  PrimFloat.leb 0 v = true /\ PrimFloat.leb v 1 = true.
Proof.
  intros v Hin. subst v. cbn [setGlobalVolume fst volume].
  assert (Hall :
    forallb (fun k =>
      let v := VolumeBar.segmentVolume k in
      match VolumeBar.currentStep v with Some s => s =? k | None => false end &&
      forallb (fun s => Bool.eqb (VolumeBar.isActive s v) (s <=? k))
              VolumeBar.volumeSegments &&
      PrimFloat.leb 0 v && PrimFloat.leb v 1) VolumeBar.volumeSegments = true)
    by (vm_compute; reflexivity).
  rewrite forallb_forall in Hall. specialize (Hall segment Hin). cbv zeta in Hall.
  rewrite !andb_true_iff in Hall. destruct Hall as [[[Hstep Hact] H0] H1].
  split.
  - destruct (VolumeBar.currentStep (VolumeBar.segmentVolume segment)) as [s|];
      [|discriminate]. apply Z.eqb_eq in Hstep. now subst.
  - split; [|split; assumption].
    intros s Hs. rewrite forallb_forall in Hact. apply eqb_prop. now apply Hact.
Qed.

End VolumeFacts.

Lemma repeated_capture_through_held_handler_witness :
  let env1 := Sample.envAt Sample.may10 TxComplete in
  let env2 := {| now := Sample.may10; nowInUpdater := Sample.may10;
                 millis := 1715300000500; isoNow := "2024-05-10T00:13:20.500Z";
                 randomId := "k3j9x0q1z"; tx := TxComplete |} in
  let app1 := (handleVerificationFrom (K := Sample.constants) (Some "h1") env1 "img-a"
                 (onToggleHabit "h1" Sample.app)).1 in
  let r := handleVerificationFrom (K := Sample.constants) (Some "h1") env2 "img-b" app1 in
  gameState r.1 = gameState app1 /\
  vault r.1 = <["proof_1715300000500" := "img-b"]> (vault app1).
Proof.
  apply (repeated_capture_through_held_handler (K := Sample.constants)
           (Sample.envAt Sample.may10 TxComplete)
           {| now := Sample.may10; nowInUpdater := Sample.may10;
              millis := 1715300000500; isoNow := "2024-05-10T00:13:20.500Z";
              randomId := "k3j9x0q1z"; tx := TxComplete |}
           "img-a" "img-b" "h1" (onToggleHabit "h1" Sample.app));
    [discriminate | reflexivity..].
Defined.

Lemma captured_proof_is_readable_witness :
  let env := Sample.envAt Sample.may10 TxComplete in
  let app' := (handleVerification (K := Sample.constants) env "img-a"
                 (onToggleHabit "h1" Sample.app)).1 in
  getProofImage TxComplete "proof_1715300000000" (vault app') = Resolved (Some "img-a").
Proof.
  apply (captured_proof_is_readable (K := Sample.constants)
           (Sample.envAt Sample.may10 TxComplete) "img-a" "h1"
           (onToggleHabit "h1" Sample.app) Sample.run1);
    try reflexivity. discriminate.
Defined.

Lemma failed_import_changes_nothing_witness :
  (handleImport (Sample.envAt Sample.may10 TxComplete)
     {| version := Some "1.0"; timestamp := None;
        doc_gameState := Some Sample.game; doc_proofs := None |} Sample.app).1
  = Sample.app.
Proof.
  rewrite (failed_import_changes_nothing (Sample.envAt Sample.may10 TxComplete)
             {| version := Some "1.0"; timestamp := None;
                doc_gameState := Some Sample.game; doc_proofs := None |} Sample.app);
    [reflexivity | right; left; reflexivity].
Defined.

Lemma import_replaces_both_stores_witness :
  let doc := {| version := Some "1.0"; timestamp := None;
                doc_gameState := Some (initialGameState (K := Sample.constants));
                doc_proofs := Some [ {| entry_id := "p"; data := "old" |};
                                     {| entry_id := "p"; data := "new" |} ] |} in
  let r := handleImport (Sample.envAt Sample.may10 TxComplete) doc Sample.app in
  vault r.1 !! "p" = Some "new" /\ vault r.1 !! "proof_1" = None.
Proof.
  cbv zeta.
  pose proof (import_replaces_both_stores (Sample.envAt Sample.may10 TxComplete)
                {| version := Some "1.0"; timestamp := None;
                   doc_gameState := Some (initialGameState (K := Sample.constants));
                   doc_proofs := Some [ {| entry_id := "p"; data := "old" |};
                                        {| entry_id := "p"; data := "new" |} ] |}
                Sample.app _ _ eq_refl eq_refl eq_refl) as (_ & _ & _ & Hv).
  split; [exact (proj1 (Hv "p")) | exact (proj1 (Hv "proof_1"))].
Defined.

Lemma volume_bar_shows_clicked_segment_witness :
  VolumeBar.currentStep (volume (setGlobalVolume (VolumeBar.segmentVolume 7) Sample.game).1)
  = Some 7.
Proof.
  apply (volume_bar_shows_clicked_segment 7 Sample.game).
  unfold VolumeBar.volumeSegments. apply in_map_iff. exists 7%nat.
  split; [reflexivity | apply in_seq; lia].
Defined.
